(** * Google Keep Takeout import: the archive-to-note extraction pipeline

    A shallow embedding of [src/utils/keep-parser.ts] (the Archive Scanner and
    the Note Extractor) and of the record mapping of
    [src/services/google-keep.service.ts], together with the properties the
    specification states about them.

    The parser is TypeScript over [any]-typed JSON values, so the embedding
    keeps JavaScript's dynamic behaviour where the code depends on it:
    truthiness in [||] and [if], property reads that yield [undefined],
    method calls that throw a [TypeError], and [try]/[catch]. *)

From Stdlib Require Import Ascii String DecimalString.
From stdpp Require Import base tactics option numbers list.

Set Warnings "-register-all".
Local Open Scope N_scope.

(** ** JavaScript strings

    A JavaScript string is a sequence of UTF-16 code units; [length],
    [substring], [trim], [includes] and the regular expressions of the parser
    all work on code units. *)

Definition unit16 := N.
Definition jsstring := list unit16.

(** A Basic Latin literal of the source as code units. *)
Definition lit (s : string) : jsstring :=
  (fun a => N_of_ascii a) <$> list_ascii_of_string s.

Definition LF : unit16 := 10.
Definition CR : unit16 := 13.
Definition SPACE : unit16 := 32.
(** U+2611 BALLOT BOX WITH CHECK and U+2610 BALLOT BOX. *)
Definition CHECKED_BOX : unit16 := 9745.
Definition UNCHECKED_BOX : unit16 := 9744.

(** ECMAScript WhiteSpace and LineTerminator code points: what
    [String.prototype.trim] strips and what [\s] matches. *)
Definition isWhiteSpace (c : unit16) : bool :=
  ((9 <=? c) && (c <=? 13))
  || (c =? 32) || (c =? 160) || (c =? 5760)
  || ((8192 <=? c) && (c <=? 8202))
  || (c =? 8232) || (c =? 8233) || (c =? 8239) || (c =? 8287)
  || (c =? 12288) || (c =? 65279).

Fixpoint trimStart (s : jsstring) : jsstring :=
  match s with
  | [] => []
  | c :: t => if isWhiteSpace c then trimStart t else s
  end.

Definition trimEnd (s : jsstring) : jsstring := reverse (trimStart (reverse s)).

(** [s.trim()] *)
Definition trim (s : jsstring) : jsstring := trimEnd (trimStart s).

(** [s.startsWith(pat)] *)
Fixpoint startsWith (s pat : jsstring) : bool :=
  match pat, s with
  | [], _ => true
  | _ :: _, [] => false
  | p :: pat', c :: s' => (c =? p) && startsWith s' pat'
  end.

(** [s.includes(pat)] *)
Fixpoint includes (s pat : jsstring) : bool :=
  startsWith s pat ||
  match s with
  | [] => false
  | _ :: t => includes t pat
  end.

(** [s.endsWith(pat)] *)
Definition endsWith (s pat : jsstring) : bool :=
  startsWith (reverse s) (reverse pat).

(** [s.substring(0, n)] *)
Definition substring0 (n : N) (s : jsstring) : jsstring := take (N.to_nat n) s.

(** [xs.length] of a string or an array. *)
Definition jslength {A : Type} (xs : list A) : N := N.of_nat (length xs).

(** [parts.join(sep)] on an array of strings. *)
Fixpoint join (sep : jsstring) (parts : list jsstring) : jsstring :=
  match parts with
  | [] => []
  | [p] => p
  | p :: rest => p ++ sep ++ join sep rest
  end.

(** [toLowerCase] on one code unit. The three patterns of the path filter are
    Basic Latin, so the map is written out for the code units whose lower-case
    form is a Basic Latin letter of a pattern: [A-Z], and U+212A KELVIN SIGN
    whose lower-case form is [k]. Every other code unit lower-cases to code
    units outside Basic Latin (or, for U+0130, to [i] followed by U+0307, and
    no pattern contains [i]) and is left as it is: it matches no pattern unit
    before or after lower-casing. *)
Definition lowerUnit (c : unit16) : unit16 :=
  if (65 <=? c) && (c <=? 90) then c + 32
  else if c =? 8490 then 107
  else c.

(** [s.toLowerCase()] *)
Definition toLowerCase (s : jsstring) : jsstring := lowerUnit <$> s.

(** ** Archive Scanner: the path filter ([isKeepHtmlFile]) *)

Definition isKeepHtmlFile (entryName : jsstring) : bool :=
  let lowerName := toLowerCase entryName in
  includes lowerName (lit "keep") &&
  endsWith lowerName (lit ".html") &&
  negb (includes lowerName (lit "label")).

(** ** Content normalization helper ([formatNoteContent]) *)

(** [.replace(/\r\n/g, '\n')] *)
Fixpoint replace_crlf (s : jsstring) : jsstring :=
  match s with
  | [] => []
  | c :: t =>
      match t with
      | d :: t' =>
          if (c =? CR) && (d =? LF) then LF :: replace_crlf t'
          else c :: replace_crlf t
      | [] => [c]
      end
  end.

(** [.replace(/\r/g, '\n')] *)
Definition replace_cr (s : jsstring) : jsstring :=
  (fun c => if c =? CR then LF else c) <$> s.

(** [.replace(/\n{3,}/g, '\n\n')]: the scan carries the length [run] of the
    run of newlines read so far; a maximal run of three or more is one greedy
    match and leaves two newlines, a shorter run is no match and is copied. *)
Definition flush_newlines (run : nat) : jsstring := replicate (Nat.min run 2) LF.

Fixpoint collapse_newlines (run : nat) (s : jsstring) : jsstring :=
  match s with
  | [] => flush_newlines run
  | c :: t =>
      if c =? LF then collapse_newlines (S run) t
      else flush_newlines run ++ c :: collapse_newlines 0 t
  end.

Definition formatNoteContent (content : jsstring) : jsstring :=
  trim (collapse_newlines 0 (replace_cr (replace_crlf content))).

(** [.replace(/\s+/g, ' ')]: every maximal run of whitespace becomes one
    space; [inRun] tells that the previous code unit was whitespace. *)
Fixpoint collapse_whitespace (inRun : bool) (s : jsstring) : jsstring :=
  match s with
  | [] => []
  | c :: t =>
      if isWhiteSpace c
      then (if inRun then collapse_whitespace true t
            else SPACE :: collapse_whitespace true t)
      else c :: collapse_whitespace false t
  end.

(** ** JavaScript values and exceptions *)

Inductive exn := TypeError | SyntaxError | OtherError.

(** The outcome of an expression or call that may throw. *)
Inductive result (A : Type) : Type :=
  | Ok (a : A)
  | Throw (e : exn).
Arguments Ok {A} a.
Arguments Throw {A} e.

#[global] Instance result_ret : MRet result := fun A a => Ok a.
#[global] Instance result_bind : MBind result := fun A B f m =>
  match m with
  | Ok a => f a
  | Throw e => Throw e
  end.

(** A JavaScript number is a double. The parser never computes with the
    numbers of a payload: it tests them for truthiness, compares them with
    [true], prints them in a template literal and hands them to [new Date].
    A number is given by what these uses observe of it: whether it is truthy
    (neither zero nor [NaN]), its string form (Number::toString, the shortest
    digits that read back as the same double), and the time value
    [new Date] makes of it ([None] for an invalid date). *)
Record number := {
  numberTruthy : bool;
  numberString : jsstring;
  numberTime : option Z;
}.

(** What [JSON.parse] returns, and [undefined] for the property reads and
    index reads that find nothing. An object is the list of its own
    properties; a read takes the first binding of the key. *)
Inductive value :=
  | VUndefined
  | VNull
  | VBool (b : bool)
  | VNum (n : number)
  | VStr (s : jsstring)
  | VArr (items : list value)
  | VObj (props : list (jsstring * value)).

(** ToBoolean *)
Definition truthy (v : value) : bool :=
  match v with
  | VUndefined | VNull => false
  | VBool b => b
  | VNum n => numberTruthy n
  | VStr s => negb (bool_decide (s = []))
  | VArr _ | VObj _ => true
  end.

(** [a || b] *)
Definition js_or (a b : value) : value := if truthy a then a else b.

(** [v === true] *)
Definition strictEqualsTrue (v : value) : bool :=
  match v with
  | VBool true => true
  | _ => false
  end.

Fixpoint lookupProp (k : jsstring) (props : list (jsstring * value)) : value :=
  match props with
  | [] => VUndefined
  | (k', v) :: rest => if bool_decide (k = k') then v else lookupProp k rest
  end.

(** [o.k] for a property name [k] that no built-in prototype defines (the
    parser reads [name], [headline], [text], [description], [itemListElement],
    [checked], [dateCreated], [dateModified]): a [TypeError] on [null] and
    [undefined], the own property of an object, [undefined] on everything
    else. *)
Definition getProp (o : value) (k : jsstring) : result value :=
  match o with
  | VUndefined | VNull => Throw TypeError
  | VObj props => Ok (lookupProp k props)
  | _ => Ok VUndefined
  end.

(** [o.k1 || o.k2 || dflt] *)
Definition getPropOr (o : value) (k1 k2 : jsstring) (dflt : value) : result value :=
  a ← getProp o k1;
  if truthy a then Ok a
  else b ← getProp o k2; Ok (js_or b dflt).

(** [Array.isArray(v)] *)
Definition isArray (v : value) : bool :=
  match v with
  | VArr _ => true
  | _ => false
  end.

(** [v[0]] on an array. *)
Definition index0 (v : value) : value :=
  match v with
  | VArr (x :: _) => x
  | _ => VUndefined
  end.

(** [v.trim()]: only strings have the method; calling it on anything else is
    a [TypeError]. *)
Definition method_trim (v : value) : result jsstring :=
  match v with
  | VStr s => Ok (trim s)
  | _ => Throw TypeError
  end.

Definition hasOwn (k : jsstring) (props : list (jsstring * value)) : bool :=
  existsb (fun kv => bool_decide (kv.1 = k)) props.

(** Number::toString for a safe integer (of magnitude at most 2^53), which
    is a double and which JavaScript prints with all its digits. *)
Definition Number_toString (n : Z) : jsstring :=
  lit (NilZero.string_of_int (Z.to_int n)).

(** ToString, as a template literal applies it: arrays print their elements
    joined by commas with [null] and [undefined] printed empty; a plain
    object prints as [[object Object]], unless it carries an own [toString]
    property, which JSON cannot make callable, and then the conversion is a
    [TypeError]. *)
Fixpoint ToString (v : value) : result jsstring :=
  match v with
  | VUndefined => Ok (lit "undefined")
  | VNull => Ok (lit "null")
  | VBool true => Ok (lit "true")
  | VBool false => Ok (lit "false")
  | VNum n => Ok (numberString n)
  | VStr s => Ok s
  | VArr items =>
      parts ← (fix each (xs : list value) : result (list jsstring) :=
                 match xs with
                 | [] => Ok []
                 | x :: xs' =>
                     p ← match x with
                         | VUndefined | VNull => Ok []
                         | _ => ToString x
                         end;
                     ps ← each xs';
                     Ok (p :: ps)
                 end) items;
      Ok (join (lit ",") parts)
  | VObj props =>
      if hasOwn (lit "toString") props then Throw TypeError
      else Ok (lit "[object Object]")
  end.

(** TimeClip: a time value is valid up to 8.64e15 ms either side of the
    epoch. *)
Definition TimeClip (n : Z) : option Z :=
  if (Z.abs n <=? 8640000000000000)%Z then Some n else None.

(** The number of a safe integer. *)
Definition safeInteger (n : Z) : number :=
  {| numberTruthy := negb (n =? 0)%Z;
     numberString := Number_toString n;
     numberTime := TimeClip n |}.

(** ** The parser ([src/utils/keep-parser.ts]) *)

Module KeepParser.

(** [createdAt] holds the time value (milliseconds since the epoch) of a valid
    [Date]; [None] is [undefined]. *)
Record ParsedNote := {
  title : jsstring;
  content : jsstring;
  createdAt : option Z;
}.

Definition Buffer := list Byte.byte.

(** One member of [zip.getEntries()]: its name and what [entry.getData()]
    does, which throws on a member that cannot be inflated. *)
Record ZipEntry := {
  entryName : jsstring;
  getData : result Buffer;
}.

(** What the parser asks of a loaded document [$]: the answers to its five
    selector queries. *)
Record Document := {
  (** [$('script[type="application/ld+json"]').html()]; [None] is [null] *)
  jsonLdScript : option jsstring;
  (** [$('title').text()] *)
  titleText : jsstring;
  (** [$('.title').text()] *)
  titleClassText : jsstring;
  (** [$('.content').length] *)
  contentDivLength : nat;
  (** [$('.content').text()] *)
  contentDivText : jsstring;
  (** [$('body').text()] *)
  bodyText : jsstring;
}.

(** The libraries and built-ins the parser calls: adm-zip, [Buffer], cheerio,
    [JSON.parse] and [Date.parse]. A [Throw] of [cheerio_load] stands for any
    exception of the markup library. [Date_parse] returns [None] for [NaN]. *)
Record Platform := {
  AdmZip_getEntries : Buffer -> result (list ZipEntry);
  Buffer_toString_utf8 : Buffer -> jsstring;
  cheerio_load : jsstring -> result Document;
  JSON_parse : jsstring -> result value;
  Date_parse : jsstring -> option Z;
}.

(** Which of the two extraction paths produced the answer for a document. *)
Inductive Path := StructuredData | MarkupFallback.

(** The completion of the [try] block of [parseKeepHtmlNote]: it either
    executes its [return], or runs to its end. *)
Inductive completion := Returned (r : option ParsedNote) | FellThrough.

Section Parser.
Context (P : Platform).

(** [new Date(v)]: the time value, [None] for an invalid date. A string is
    parsed; a number gives its time value; any other primitive is converted
    to a number; an array or object is first converted to a primitive, the
    string [ToString] gives. *)
Definition newDate (v : value) : result (option Z) :=
  match v with
  | VUndefined => Ok None
  | VNull => Ok (Some 0%Z)
  | VBool b => Ok (Some (if b then 1 else 0)%Z)
  | VNum n => Ok (numberTime n)
  | VStr s => Ok (Date_parse P s)
  | VArr _ | VObj _ => s ← ToString v; Ok (Date_parse P s)
  end.

(** The body of the checklist loop for one [item]. *)
Definition renderChecklistItem (item : value) : result jsstring :=
  itemText ← getPropOr item (lit "text") (lit "name") (VStr []);
  checked ← getProp item (lit "checked");
  let isChecked := strictEqualsTrue checked in
  let checkbox := if isChecked then CHECKED_BOX else UNCHECKED_BOX in
  text ← ToString itemText;
  Ok ([checkbox] ++ [SPACE] ++ text).

(** [for (const item of items) { ...; checklistItems.push(...) }] *)
Fixpoint renderChecklist (items : list value) (checklistItems : list jsstring)
  : result (list jsstring) :=
  match items with
  | [] => Ok checklistItems
  | item :: rest =>
      line ← renderChecklistItem item;
      renderChecklist rest (checklistItems ++ [line])
  end.

Definition arrayItems (v : value) : list value :=
  match v with
  | VArr items => items
  | _ => []
  end.

(** The content of the note: the rendered checklist, or the text. *)
Definition structuredContent (data : value) : result value :=
  itemListElement ← getProp data (lit "itemListElement");
  if truthy itemListElement && isArray itemListElement then
    checklistItems ← renderChecklist (arrayItems itemListElement) [];
    Ok (VStr (join [LF] checklistItems))
  else
    getPropOr data (lit "text") (lit "description") (VStr []).

(** The recovery of [createdAt]: [dateModified] is looked at in the [else]
    branch of the test of [dateCreated]. *)
Definition recoverCreatedAt (data : value) : result (option Z) :=
  dateCreated ← getProp data (lit "dateCreated");
  if truthy dateCreated then newDate dateCreated
  else
    dateModified ← getProp data (lit "dateModified");
    if truthy dateModified then newDate dateModified
    else Ok None.

Definition extractNoteFromJsonLd (data : value) : result (option ParsedNote) :=
  title ← getPropOr data (lit "name") (lit "headline") (VStr []);
  content ← structuredContent data;
  if negb (truthy content) then Ok None
  else
    trimmed ← method_trim content;
    if (length trimmed =? 0)%nat then Ok None
    else
      createdAt ← recoverCreatedAt data;
      title' ← method_trim title;
      content' ← method_trim content;
      Ok (Some {| title := title'; content := content'; createdAt := createdAt |}).

Definition extractNoteFromHtml (doc : Document) : option ParsedNote :=
  let title :=
    if bool_decide (titleText doc = []) then titleClassText doc
    else titleText doc in
  let content :=
    if (0 <? contentDivLength doc)%nat then contentDivText doc
    else bodyText doc in
  let content := trim (collapse_whitespace false content) in
  if (length content =? 0)%nat then None
  else Some {| title := trim title; content := trim content; createdAt := None |}.

(** The working object: the first element when the payload is an array. *)
Definition workingObject (jsonData : value) : value :=
  if isArray jsonData then index0 jsonData else jsonData.

(** The [try] block of [parseKeepHtmlNote]. *)
Definition tryJsonLd (jsonLdScript : jsstring) : result completion :=
  jsonData ← JSON_parse P jsonLdScript;
  let jsonData := workingObject jsonData in
  if truthy jsonData then
    r ← extractNoteFromJsonLd jsonData; Ok (Returned r)
  else Ok FellThrough.

(** [parseKeepHtmlNote] on the loaded document, with the path it took:
    [MarkupFallback] is reported exactly when control reaches the call of
    [extractNoteFromHtml]. *)
Definition parseLoaded (doc : Document) : Path * option ParsedNote :=
  match jsonLdScript doc with
  | Some script =>
      if bool_decide (script = []) then (MarkupFallback, extractNoteFromHtml doc)
      else
        match tryJsonLd script with
        | Ok (Returned r) => (StructuredData, r)
        | Ok FellThrough | Throw _ => (MarkupFallback, extractNoteFromHtml doc)
        end
  | None => (MarkupFallback, extractNoteFromHtml doc)
  end.

Definition parseKeepHtmlNote (html : jsstring) : result (option ParsedNote) :=
  doc ← cheerio_load P html;
  Ok (parseLoaded doc).2.

(** The [try] block of the scan loop for one entry. *)
Definition parseEntry (entry : ZipEntry) : result (option ParsedNote) :=
  data ← getData entry;
  let htmlContent := Buffer_toString_utf8 P data in
  parseKeepHtmlNote htmlContent.

(** One iteration of [for (const entry of zipEntries)]; the [catch] only
    logs a warning. *)
Definition scanStep (parsedNotes : list ParsedNote) (entry : ZipEntry)
  : list ParsedNote :=
  if isKeepHtmlFile (entryName entry) then
    match parseEntry entry with
    | Ok (Some note) =>
        if (0 <? length (trim (content note)))%nat then parsedNotes ++ [note]
        else parsedNotes
    | Ok None => parsedNotes
    | Throw _ => parsedNotes
    end
  else parsedNotes.

Definition scanEntries (zipEntries : list ZipEntry) : list ParsedNote :=
  foldl scanStep [] zipEntries.

Definition parseGoogleKeepTakeout (zipBuffer : Buffer) : result (list ParsedNote) :=
  zipEntries ← AdmZip_getEntries P zipBuffer;
  Ok (scanEntries zipEntries).

End Parser.

End KeepParser.

(** ** The service ([src/services/google-keep.service.ts]) *)

Module GoogleKeepService.

Definition MAX_NOTES_LIMIT : N := 5000.
Definition MAX_CONTENT_LENGTH : N := 65535.

(** One element of [notesToCreate], the data handed to [createMany]. *)
Record NoteCreateInput := {
  title : jsstring;
  content : jsstring;
  userId : jsstring;
  createdAt : Z;
}.

(** The callback of [parsedNotes.map]; [now] is what [new Date()] reads when
    the callback runs. *)
Definition toCreateInput (userId : jsstring) (now : Z) (note : KeepParser.ParsedNote)
  : NoteCreateInput :=
  {| title :=
       if negb (bool_decide (KeepParser.title note = []))
       then substring0 255 (KeepParser.title note)
       else lit "Imported Keep Note";
     content := substring0 MAX_CONTENT_LENGTH (KeepParser.content note);
     userId := userId;
     createdAt :=
       match KeepParser.createdAt note with
       | Some t => t
       | None => now
       end |}.

(** [parseAndSaveNotes] from the call of the parser up to the call of
    [createMany]: the records handed to storage, or the exception thrown. The
    user lookup before it and the insertion after it belong to the storage
    client. [clock i] is the time read while the note at index [i] is
    mapped. *)
Definition parseAndSaveNotes (P : KeepParser.Platform) (clock : nat -> Z)
    (zipBuffer : KeepParser.Buffer) (userId : jsstring)
  : result (list NoteCreateInput) :=
  parsedNotes ← KeepParser.parseGoogleKeepTakeout P zipBuffer;
  if jslength parsedNotes =? 0 then Throw OtherError
  else if MAX_NOTES_LIMIT <? jslength parsedNotes then Throw OtherError
  else Ok (imap (fun i note => toCreateInput userId (clock i) note) parsedNotes).

End GoogleKeepService.

(** ** Fixtures

    A platform given by tables, for running the parser on concrete archives:
    the archive reader returns the listed entries, the markup library knows
    the listed pages (any other page loads as an empty document),
    [JSON.parse] knows the listed payloads (any other payload is a syntax
    error) and [Date.parse] the listed date strings (any other is [NaN]). *)

Module Fixture.
Import KeepParser.

Fixpoint assoc {V : Type} (k : jsstring) (tbl : list (jsstring * V)) : option V :=
  match tbl with
  | [] => None
  | (k', v) :: rest => if bool_decide (k = k') then Some v else assoc k rest
  end.

Definition bytes (s : string) : Buffer :=
  (fun a => byte_of_ascii a) <$> list_ascii_of_string s.

Definition emptyDocument : Document :=
  {| jsonLdScript := None; titleText := []; titleClassText := [];
     contentDivLength := 0; contentDivText := []; bodyText := [] |}.

Definition platform (entries : list ZipEntry) (pages : list (jsstring * Document))
    (payloads : list (jsstring * value)) (dates : list (jsstring * Z)) : Platform :=
  {| AdmZip_getEntries := fun _ => Ok entries;
     Buffer_toString_utf8 := fun buf => (fun b => Byte.to_N b) <$> buf;
     cheerio_load := fun html => Ok (default emptyDocument (assoc html pages));
     JSON_parse := fun s =>
       match assoc s payloads with
       | Some v => Ok v
       | None => Throw SyntaxError
       end;
     Date_parse := fun s => assoc s dates |}.

(** A page whose structured-data block is the empty JSON array. *)
Definition emptyArrayPage : Document :=
  {| jsonLdScript := Some (lit "[]"); titleText := lit "Groceries";
     titleClassText := []; contentDivLength := 1;
     contentDivText := lit " milk  and eggs "; bodyText := lit "Groceries milk and eggs" |}.

Definition emptyArrayPlatform : Platform :=
  platform [] [] [(lit "[]", VArr [])] [].

(** The double quote, and a JSON string literal. *)
Definition dq : string := String (ascii_of_nat 34) EmptyString.
Definition quoted (s : string) : string := (dq ++ s ++ dq)%string.

Definition scriptOpen : string := "<script type=application/ld+json>".
Definition scriptClose : string := "</script>".

(** [{"name":"T","text":"Hello"}] *)
Definition note1_payload : string :=
  ("{" ++ quoted "name" ++ ":" ++ quoted "T" ++ "," ++
   quoted "text" ++ ":" ++ quoted "Hello" ++ "}")%string.
Definition note1_html : string := (scriptOpen ++ note1_payload ++ scriptClose)%string.
Definition note1_page : Document :=
  {| jsonLdScript := Some (lit note1_payload); titleText := [];
     titleClassText := []; contentDivLength := 0; contentDivText := [];
     bodyText := [] |}.
Definition note1_value : value :=
  VObj [(lit "name", VStr (lit "T")); (lit "text", VStr (lit "Hello"))].

(** A page without a structured-data block. *)
Definition plain_html : string := "<title>Plain</title><body>  Hello   world  </body>".
Definition plain_page : Document :=
  {| jsonLdScript := None; titleText := lit "Plain"; titleClassText := [];
     contentDivLength := 0; contentDivText := [];
     bodyText := lit "  Hello   world  " ++ [LF; LF] |}.

(** [{"name":"T"}]: a structured-data block without content, on a page whose
    body has text. *)
Definition untexted_payload : string :=
  ("{" ++ quoted "name" ++ ":" ++ quoted "T" ++ "}")%string.
Definition untexted_page : Document :=
  {| jsonLdScript := Some (lit untexted_payload); titleText := lit "T";
     titleClassText := []; contentDivLength := 0; contentDivText := [];
     bodyText := lit "Body text" |}.
Definition untexted_value : value := VObj [(lit "name", VStr (lit "T"))].

(** An archive of four entries: a note with a structured-data block, a page
    of the labels folder, a member that cannot be inflated, and a note
    without a structured-data block. *)
Definition sampleEntries : list ZipEntry :=
  [ {| entryName := lit "Takeout/Keep/Note1.html"; getData := Ok (bytes note1_html) |};
    {| entryName := lit "Takeout/Keep/Labels/x.html"; getData := Ok (bytes plain_html) |};
    {| entryName := lit "Takeout/Keep/Broken.html"; getData := Throw OtherError |};
    {| entryName := lit "Takeout/Keep/Plain.html"; getData := Ok (bytes plain_html) |} ].

Definition brokenEntry : ZipEntry :=
  {| entryName := lit "Takeout/Keep/Broken.html"; getData := Throw OtherError |}.

Definition isoDate : jsstring := lit "2020-01-01T00:00:00.000Z".

Definition samplePlatform : Platform :=
  platform sampleEntries
    [(lit note1_html, note1_page); (lit plain_html, plain_page)]
    [(lit note1_payload, note1_value); (lit untexted_payload, untexted_value)]
    [(isoDate, 1577836800000%Z)].

Definition sampleArchive : Buffer := bytes "PK".

Definition note1 : ParsedNote :=
  {| title := lit "T"; content := lit "Hello"; createdAt := None |}.
Definition plainNote : ParsedNote :=
  {| title := lit "Plain"; content := lit "Hello world"; createdAt := None |}.

Definition sampleClock (i : nat) : Z := (1700000000000 + Z.of_nat i)%Z.

(** A note whose [dateCreated] is not a date and whose [dateModified] is. *)
Definition misdatedNote : value :=
  VObj [(lit "text", VStr (lit "Hello"));
        (lit "dateCreated", VStr (lit "not a date"));
        (lit "dateModified", VStr isoDate)].

(** A checklist of two items, the second without text. *)
Definition milkItem : value :=
  VObj [(lit "text", VStr (lit "milk")); (lit "checked", VBool true)].

(** Two paragraphs in the output form of the normalization helper. *)
Definition twoParagraphs : jsstring := lit "a" ++ [LF; LF] ++ lit "b".

End Fixture.

(** ** Vocabulary of the specification *)

(** A string has no leading and no trailing whitespace. *)
Definition isTrimmed (s : jsstring) : Prop :=
  (forall c, head s = Some c -> isWhiteSpace c = false) /\
  (forall c, last s = Some c -> isWhiteSpace c = false).

(** The output form of the content normalization helper: every line ending
    is a single newline (no carriage return is left), no run of three or more
    consecutive newlines, no leading or trailing whitespace. *)
Definition noCarriageReturn (s : jsstring) : Prop := CR ∉ s.

Definition noTripleNewline (s : jsstring) : Prop :=
  forall l1 l2, s <> l1 ++ [LF; LF; LF] ++ l2.

Definition outputForm (s : jsstring) : Prop :=
  noCarriageReturn s /\ noTripleNewline s /\ isTrimmed s.

(** Two strings are equal up to letter case. *)
Definition sameIgnoringCase (a b : jsstring) : Prop :=
  toLowerCase a = toLowerCase b.

(** [path] contains [pat] as a substring, case-insensitively. *)
Definition containsIgnoringCase (path pat : jsstring) : Prop :=
  exists l1 m l2, path = l1 ++ m ++ l2 /\ sameIgnoringCase m pat.

(** [path] ends with [pat], case-insensitively. *)
Definition endsWithIgnoringCase (path pat : jsstring) : Prop :=
  exists l1 m, path = l1 ++ m /\ sameIgnoringCase m pat.

(** A checklist line as the specification writes it. *)
Definition checklistLine (checked : bool) (text : jsstring) : jsstring :=
  (if checked then CHECKED_BOX else UNCHECKED_BOX) :: SPACE :: text.

(** The display text of a checklist item: its [text] field, falling back to
    its [name] field, falling back to the empty string, converted to a
    string. *)
Definition itemDisplayText (item : value) : result jsstring :=
  v ← getPropOr item (lit "text") (lit "name") (VStr []);
  ToString v.

(** [line] is the line of [item]: the checked box when the [checked] field is
    [true] and the unchecked box otherwise, a space, the display text. *)
Definition isLineOf (item : value) (line : jsstring) : Prop :=
  exists checked text,
    getProp item (lit "checked") = Ok checked /\
    itemDisplayText item = Ok text /\
    line = checklistLine (strictEqualsTrue checked) text.

(** [line] is the line of [item] with the box told by the [checked] field:
    the checked box when the field is exactly the boolean [true], the
    unchecked box for any other value and when the field is absent. *)
Definition hasLineOf (item : value) (line : jsstring) : Prop :=
  exists text,
    itemDisplayText item = Ok text /\
    (getProp item (lit "checked") = Ok (VBool true) ->
       line = CHECKED_BOX :: SPACE :: text) /\
    (getProp item (lit "checked") <> Ok (VBool true) ->
       line = UNCHECKED_BOX :: SPACE :: text).


(** The fallback rule as the specification states it: the markup fallback
    is attempted exactly when no structured-data block is present or its
    payload fails to parse as JSON. *)
Definition fallbackOnlyWhenAbsentOrUnparsed (P : KeepParser.Platform)
    (doc : KeepParser.Document) : Prop :=
  (KeepParser.parseLoaded P doc).1 = KeepParser.MarkupFallback <->
  KeepParser.jsonLdScript doc = None \/
  exists script e,
    KeepParser.jsonLdScript doc = Some script /\
    KeepParser.JSON_parse P script = Throw e.

(** The content computed by the structured-data path is empty: falsy, or a
    string that trims to the empty string. *)
Definition emptyContent (cv : value) : Prop :=
  truthy cv = false \/ exists c, cv = VStr c /\ trim c = [].

(** A content that is neither empty nor whitespace-only. *)
Definition notBlank (s : jsstring) : Prop :=
  s <> [] /\ forallb isWhiteSpace s = false.

(** The note an archive entry contributes to the output of the scan. *)
Definition producedNote (P : KeepParser.Platform) (entry : KeepParser.ZipEntry)
  : option KeepParser.ParsedNote :=
  if isKeepHtmlFile (KeepParser.entryName entry) then
    match KeepParser.parseEntry P entry with
    | Ok (Some note) =>
        if (0 <? length (trim (KeepParser.content note)))%nat then Some note
        else None
    | Ok None => None
    | Throw _ => None
    end
  else None.

(** A candidate entry whose processing throws: an exception leaves the
    [try] block of the scan loop, thrown by the decoding of the entry or by
    the loading of its markup. *)
Definition throwsOn (P : KeepParser.Platform) (entry : KeepParser.ZipEntry) : bool :=
  isKeepHtmlFile (KeepParser.entryName entry) &&
  match KeepParser.parseEntry P entry with
  | Throw _ => true
  | Ok _ => false
  end.

(** The structured-data extraction of a loaded document throws: its payload
    parses, the working object is truthy and [extractNoteFromJsonLd]
    throws. *)
Definition extractionThrows (P : KeepParser.Platform) (doc : KeepParser.Document) : bool :=
  match KeepParser.jsonLdScript doc with
  | Some script =>
      negb (bool_decide (script = [])) &&
      match KeepParser.JSON_parse P script with
      | Ok jsonData =>
          truthy (KeepParser.workingObject jsonData) &&
          match KeepParser.extractNoteFromJsonLd P (KeepParser.workingObject jsonData) with
          | Throw _ => true
          | Ok _ => false
          end
      | Throw _ => false
      end
  | None => false
  end.

(** A step of the processing of a candidate entry throws: the decoding of
    its bytes, the loading of its markup, or the structured-data
    extraction. *)
Definition someStepThrows (P : KeepParser.Platform) (entry : KeepParser.ZipEntry) : bool :=
  isKeepHtmlFile (KeepParser.entryName entry) &&
  match KeepParser.getData entry with
  | Throw _ => true
  | Ok data =>
      match KeepParser.cheerio_load P (KeepParser.Buffer_toString_utf8 P data) with
      | Throw _ => true
      | Ok doc => extractionThrows P doc
      end
  end.

(** The skipping rule as the specification states it: every entry of which
    a step throws is skipped, and the output is the output over the other
    entries. *)
Definition skipsEveryThrowingEntry (P : KeepParser.Platform)
    (entries : list KeepParser.ZipEntry) : Prop :=
  KeepParser.scanEntries P entries
  = omap (producedNote P) (filter (fun entry => someStepThrows P entry = false) entries).

(** [r] is [s] capped to [n] characters: the first [n] code units of [s],
    or all of [s] when it is shorter. *)
Definition cappedTo (n : N) (s r : jsstring) : Prop :=
  r `prefix_of` s /\ jslength r = N.min n (jslength s).

(** A text whose only whitespace is single spaces: every whitespace code
    unit is a space and no two spaces are adjacent. *)
Definition singleSpaced (s : jsstring) : Prop :=
  (forall c, c ∈ s -> isWhiteSpace c = true -> c = SPACE) /\
  (forall l1 l2, s <> l1 ++ [SPACE; SPACE] ++ l2).

(** A text written with [ending] for every newline. *)
Definition withLineEnding (ending : jsstring) (s : jsstring) : jsstring :=
  s ≫= (fun c => if c =? LF then ending else [c]).

(** An archive entry the path filter lets through. *)
Definition isCandidate (entry : KeepParser.ZipEntry) : Prop :=
  isKeepHtmlFile (KeepParser.entryName entry) = true.

#[global] Instance isCandidate_dec (entry : KeepParser.ZipEntry)
  : Decision (isCandidate entry) :=
  decide (isKeepHtmlFile (KeepParser.entryName entry) = true).

(** [typeof v === 'string'] *)
Definition isStringValue (v : value) : bool :=
  match v with
  | VStr _ => true
  | _ => false
  end.

(** The value the structured path takes as title, [name || headline || '']. *)
Definition titleValue (props : list (jsstring * value)) : value :=
  js_or (lookupProp (lit "name") props)
        (js_or (lookupProp (lit "headline") props) (VStr [])).

(** The working object is not a checklist: its [itemListElement] is missing,
    falsy or not an array. *)
Definition notChecklist (props : list (jsstring * value)) : Prop :=
  isArray (lookupProp (lit "itemListElement") props) = false.

(** ** The validators ([src/utils/validators.ts]) *)

Module Validators.

(** An issue of a failed parse: the schema library's own type error, or the
    message given to the check that failed. *)
Inductive issue := InvalidType | CheckFailed (message : jsstring).

(** [z.SafeParseReturnType]; [issues] is [error.errors]. *)
Inductive SafeParse (A : Type) : Type :=
  | Success (data : A)
  | Failure (issues : list issue).
Arguments Success {A} data.
Arguments Failure {A} issues.

Definition finish {A : Type} (data : A) (issues : list issue) : SafeParse A :=
  match issues with
  | [] => Success data
  | _ :: _ => Failure issues
  end.

(** A string check [.min(n, message)]: the length is below [n]. *)
Definition minLength (n : N) (message : string) (s : jsstring) : list issue :=
  if jslength s <? n then [CheckFailed (lit message)] else [].

(** A string check [.max(n, message)]: the length is above [n]. *)
Definition maxLength (n : N) (message : string) (s : jsstring) : list issue :=
  if n <? jslength s then [CheckFailed (lit message)] else [].

(** [userIdSchema]: every check runs, in order. *)
Definition userIdSchema (s : jsstring) : list issue :=
  minLength 1 "User ID is required" s ++ maxLength 255 "User ID too long" s.

(** [validateUserId(userId: unknown)] *)
Definition validateUserId (userId : value) : SafeParse jsstring :=
  match userId with
  | VStr s => finish s (userIdSchema s)
  | _ => Failure [InvalidType]
  end.

(** The argument of [validateUploadedFile]; [size] is a byte count. *)
Record UploadedFileInfo := {
  filepath : jsstring;
  originalFilename : jsstring;
  size : Z;
}.

Definition MAX_FILE_SIZE : Z := 200 * 1024 * 1024.

(** [fileSchema]: the fields are parsed in the order of the schema and the
    issues come in that order. The file name is lower-cased with
    [toLowerCase], which is exact for a suffix test against [.zip]: the only
    code unit it leaves alone whose lower-case form has a Basic Latin letter
    is U+0130, and that form is [i] followed by U+0307, never [i] followed
    by [p]. *)
Definition fileSchema (file : UploadedFileInfo) : list issue :=
  minLength 1 "File path required" (filepath file) ++
  (if endsWith (toLowerCase (originalFilename file)) (lit ".zip") then []
   else [CheckFailed (lit "File must be a .zip file")]) ++
  (if (size file <? 1)%Z then [CheckFailed (lit "File is empty")] else []) ++
  (if (MAX_FILE_SIZE <? size file)%Z then [CheckFailed (lit "File exceeds 200MB limit")]
   else []).

Definition validateUploadedFile (file : UploadedFileInfo) : SafeParse UploadedFileInfo :=
  finish file (fileSchema file).

(** [buffer[i]]: [None] is [undefined], past the end. *)
Definition byteAt (buffer : list Byte.byte) (i : nat) : option N :=
  Byte.to_N <$> buffer !! i.

(** [buffer[i] === n] *)
Definition byteIs (buffer : list Byte.byte) (i : nat) (n : N) : bool :=
  match byteAt buffer i with
  | Some b => b =? n
  | None => false
  end.

Definition isValidZipBuffer (buffer : list Byte.byte) : bool :=
  if jslength buffer <? 4 then false
  else byteIs buffer 0 80 && byteIs buffer 1 75 && byteIs buffer 2 3 && byteIs buffer 3 4.

End Validators.

(** ** The service with its storage calls

    [parseAndSaveNotes] of [src/services/google-keep.service.ts] in full:
    the user lookup, the creation of the placeholder user, the mapping
    modelled in [GoogleKeepService.parseAndSaveNotes], and the bulk
    insertion. The storage client is given by what its calls return; the
    calls made are recorded in order. *)

Module GoogleKeepStorage.

(** The [data] of [prisma.user.create]. *)
Record UserCreateInput := {
  id : jsstring;
  email : jsstring;
  name : jsstring;
}.

(** The storage client: [findUnique] tells whether a user was found, and
    [createMany] returns [result.count]. *)
Record Prisma := {
  user_findUnique : jsstring -> result bool;
  user_create : UserCreateInput -> result unit;
  note_createMany : list GoogleKeepService.NoteCreateInput -> result N;
}.

Inductive call :=
  | FindUser (id : jsstring)
  | CreateUser (data : UserCreateInput)
  | CreateNotes (data : list GoogleKeepService.NoteCreateInput).

Definition placeholderUser (userId : jsstring) : UserCreateInput :=
  {| id := userId;
     email := userId ++ lit "@placeholder.local";
     name := lit "Imported User" |}.

Definition parseAndSaveNotes (DB : Prisma) (P : KeepParser.Platform) (clock : nat -> Z)
    (zipBuffer : KeepParser.Buffer) (userId : jsstring) : result N * list call :=
  match user_findUnique DB userId with
  | Throw e => (Throw e, [FindUser userId])
  | Ok userExists =>
      let created :=
        if userExists then (Ok tt, [])
        else (user_create DB (placeholderUser userId),
              [CreateUser (placeholderUser userId)]) in
      match created.1 with
      | Throw e => (Throw e, FindUser userId :: created.2)
      | Ok _ =>
          match GoogleKeepService.parseAndSaveNotes P clock zipBuffer userId with
          | Throw e => (Throw e, FindUser userId :: created.2)
          | Ok notesToCreate =>
              (note_createMany DB notesToCreate,
               FindUser userId :: created.2 ++ [CreateNotes notesToCreate])
          end
      end
  end.

End GoogleKeepStorage.

(** ** The controller ([src/controllers/keep-import.controller.ts]) *)

Module Controller.

(** An uploaded file as the multipart parser hands it over. *)
Record File := {
  filepath : jsstring;
  originalFilename : option jsstring;
  newFilename : jsstring;
  size : Z;
}.

(** The value of one field of [ctx.request.files]: a file or an array. *)
Inductive FileField := OneFile (file : File) | ManyFiles (files : list File).

(** What the controller reads of the request: [ctx.get('X-User-ID')], the
    empty string when the header is absent, and [ctx.request.files]. *)
Record Request := {
  xUserId : jsstring;
  files : option (list (jsstring * FileField));
}.

(** The text of an error body: a literal of the controller or the message of
    a failed check, the schema library's own message for a type error, or
    [err.message || 'Import failed'] of the exception the service threw. *)
Inductive ErrorText :=
  | Literal (text : jsstring)
  | TypeErrorMessage
  | MessageOf (e : exn).

Inductive Body :=
  | ErrorBody (error : ErrorText)
  | SuccessBody (imported : N) (message : jsstring).

Record Response := {
  status : N;
  body : Body;
}.

(** The file system and the service as the controller uses them. The
    service returns the number of rows inserted, a safe integer. *)
Record Env := {
  readFile : jsstring -> result KeepParser.Buffer;
  parseAndSaveNotes : KeepParser.Buffer -> jsstring -> result N;
}.

(** What the controller does besides answering, in order. [Cleanup] is a
    call of [cleanupFile], which never throws. *)
Inductive effect :=
  | ReadFile (path : jsstring)
  | Cleanup (path : jsstring)
  | CallService (fileBuffer : KeepParser.Buffer) (userId : jsstring).

Fixpoint lookupField (k : jsstring) (fields : list (jsstring * FileField))
  : option FileField :=
  match fields with
  | [] => None
  | (k', v) :: rest => if bool_decide (k = k') then Some v else lookupField k rest
  end.

(** The [uploadedFile] the controller settles on; [None] is [null] or
    [undefined]. *)
Definition uploadedFileOf (req : Request) : option File :=
  match files req with
  | None => None
  | Some fields =>
      match lookupField (lit "takeout") fields with
      | None => None
      | Some (OneFile file) => Some file
      | Some (ManyFiles files) => head files
      end
  end.

(** [a || b] on strings. *)
Definition orString (a b : jsstring) : jsstring :=
  if bool_decide (a = []) then b else a.

(** The object handed to [validateUploadedFile]. *)
Definition fileInfo (file : File) : Validators.UploadedFileInfo :=
  {| Validators.filepath := filepath file;
     Validators.originalFilename :=
       orString (default [] (originalFilename file)) (orString (newFilename file) []);
     Validators.size := if (size file =? 0)%Z then 0%Z else size file |}.

(** [fileValidation.error.errors[0]?.message || 'Invalid file'] *)
Definition firstMessage (issues : list Validators.issue) : ErrorText :=
  match issues with
  | Validators.CheckFailed message :: _ =>
      Literal (orString message (lit "Invalid file"))
  | Validators.InvalidType :: _ => TypeErrorMessage
  | [] => Literal (lit "Invalid file")
  end.

Definition respond (status : N) (error : string) : Response :=
  {| status := status; body := ErrorBody (Literal (lit error)) |}.

Definition importKeepNotes (E : Env) (req : Request) : Response * list effect :=
  match Validators.validateUserId (VStr (xUserId req)) with
  | Validators.Failure _ =>
      (respond 401 "Unauthorized: X-User-ID header required", [])
  | Validators.Success userId =>
      match uploadedFileOf req with
      | None =>
          (respond 400 "Missing takeout ZIP file. Use form field name: takeout", [])
      | Some uploadedFile =>
          if bool_decide (filepath uploadedFile = []) then
            (respond 400 "Missing takeout ZIP file. Use form field name: takeout", [])
          else
            match Validators.validateUploadedFile (fileInfo uploadedFile) with
            | Validators.Failure issues =>
                ({| status := 400; body := ErrorBody (firstMessage issues) |},
                 [Cleanup (filepath uploadedFile)])
            | Validators.Success _ =>
                match readFile E (filepath uploadedFile) with
                | Throw _ =>
                    (respond 500 "Failed to read uploaded file",
                     [ReadFile (filepath uploadedFile); Cleanup (filepath uploadedFile)])
                | Ok fileBuffer =>
                    let effects :=
                      [ReadFile (filepath uploadedFile);
                       Cleanup (filepath uploadedFile);
                       CallService fileBuffer userId] in
                    match parseAndSaveNotes E fileBuffer userId with
                    | Ok importedCount =>
                        ({| status := 200;
                            body := SuccessBody importedCount
                                      (lit "Successfully imported " ++
                                       Number_toString (Z.of_N importedCount) ++
                                       lit " notes") |},
                         effects)
                    | Throw e =>
                        ({| status := 400; body := ErrorBody (MessageOf e) |}, effects)
                    end
                end
            end
      end
  end.

End Controller.

(** Further sample inputs. *)
Module Cases.
Import KeepParser.

(** A note with both dates, of which [dateCreated] parses. *)
Definition datedNote : value :=
  VObj [(lit "text", VStr (lit "Hello"));
        (lit "dateCreated", VStr Fixture.isoDate);
        (lit "dateModified", VStr (lit "not a date"))].

(** A note whose [text] is one space and whose [description] has words. *)
Definition blankTextProps : list (jsstring * value) :=
  [(lit "text", VStr [SPACE]); (lit "description", VStr (lit "Shopping list"))].

(** A note whose [name] is the number 2024. *)
Definition numericNameProps : list (jsstring * value) :=
  [(lit "name", VNum (safeInteger 2024)); (lit "text", VStr (lit "Hello"))].

(** [{"name":2024,"text":"Hello"}] *)
Definition numericName_payload : string :=
  ("{" ++ Fixture.quoted "name" ++ ":2024," ++
   Fixture.quoted "text" ++ ":" ++ Fixture.quoted "Hello" ++ "}")%string.

Definition numericName_page : Document :=
  {| jsonLdScript := Some (lit numericName_payload); titleText := lit "Year";
     titleClassText := []; contentDivLength := 0; contentDivText := [];
     bodyText := lit "Hello" |}.

(** A checklist whose second item is [null]. *)
Definition nullItemProps : list (jsstring * value) :=
  [(lit "itemListElement", VArr [Fixture.milkItem; VNull])].

(** [{"itemListElement":[{"text":"milk","checked":true},null]}] *)
Definition nullItem_payload : string :=
  ("{" ++ Fixture.quoted "itemListElement" ++ ":[{" ++
   Fixture.quoted "text" ++ ":" ++ Fixture.quoted "milk" ++ "," ++
   Fixture.quoted "checked" ++ ":true},null]}")%string.

Definition nullItem_page : Document :=
  {| jsonLdScript := Some (lit nullItem_payload); titleText := lit "List";
     titleClassText := []; contentDivLength := 0; contentDivText := [];
     bodyText := lit "milk" |}.

Definition platform : Platform :=
  Fixture.platform []
    []
    [(lit numericName_payload, VObj numericNameProps);
     (lit nullItem_payload, VObj nullItemProps)]
    [(Fixture.isoDate, 1577836800000%Z)].

(** An archive of one entry, the page whose [name] is a number. *)
Definition numericName_html : string :=
  (Fixture.scriptOpen ++ numericName_payload ++ Fixture.scriptClose ++
   "<title>Year</title><body>Hello</body>")%string.

Definition numericNameEntry : ZipEntry :=
  {| entryName := lit "Takeout/Keep/Year.html";
     getData := Ok (Fixture.bytes numericName_html) |}.

Definition numericNamePlatform : Platform :=
  Fixture.platform [numericNameEntry]
    [(lit numericName_html, numericName_page)]
    [(lit numericName_payload, VObj numericNameProps)]
    [].

(** A checklist whose [checked] fields are the string "true", the number 1,
    the boolean [true], and absent. *)
Definition mixedItems : list value :=
  [VObj [(lit "text", VStr (lit "a")); (lit "checked", VStr (lit "true"))];
   VObj [(lit "text", VStr (lit "b")); (lit "checked", VNum (safeInteger 1))];
   VObj [(lit "text", VStr (lit "c")); (lit "checked", VBool true)];
   VObj [(lit "text", VStr (lit "d"))]].

Definition mixedChecklist : value :=
  VObj [(lit "name", VStr (lit "Todo")); (lit "itemListElement", VArr mixedItems)].

Definition mixedLines : list jsstring :=
  [UNCHECKED_BOX :: SPACE :: lit "a";
   UNCHECKED_BOX :: SPACE :: lit "b";
   CHECKED_BOX :: SPACE :: lit "c";
   UNCHECKED_BOX :: SPACE :: lit "d"].

Definition mixedNote : ParsedNote :=
  {| title := lit "Todo"; content := join [LF] mixedLines; createdAt := None |}.

End Cases.

(** The first four bytes of a ZIP local file header, [PK\x03\x04]. *)
Definition zipMagic : list Byte.byte := [Byte.x50; Byte.x4b; Byte.x03; Byte.x04].

(** A file the upload validation accepts: a path, a name ending in [.zip]
    whatever its case, a size between one byte and 200 MiB. *)
Definition acceptableFile (file : Validators.UploadedFileInfo) : Prop :=
  Validators.filepath file <> [] /\
  endsWithIgnoringCase (Validators.originalFilename file) (lit ".zip") /\
  (1 <= Validators.size file <= 209715200)%Z.

(** A storage client whose calls all succeed: [found] tells whether the
    user exists, and the insertion reports as many rows as it was given. *)
Definition healthyStorage (found : bool) : GoogleKeepStorage.Prisma :=
  {| GoogleKeepStorage.user_findUnique := fun _ => Ok found;
     GoogleKeepStorage.user_create := fun _ => Ok tt;
     GoogleKeepStorage.note_createMany := fun data => Ok (jslength data) |}.

(** Sample requests for the controller. *)
Module Requests.
Import Controller.

Definition takeoutFile : File :=
  {| filepath := lit "/tmp/upload_1"; originalFilename := Some (lit "takeout.ZIP");
     newFilename := lit "upload_1.ZIP"; size := 1024 |}.

Definition goodRequest : Request :=
  {| xUserId := lit "user-1";
     files := Some [(lit "takeout", ManyFiles [takeoutFile])] |}.

(** The same upload without the identifying header. *)
Definition anonymousRequest : Request :=
  {| xUserId := []; files := Some [(lit "takeout", OneFile takeoutFile)] |}.



(** A file system that holds the upload and a service that imports two
    notes. *)
Definition env : Env :=
  {| readFile := fun path =>
       if bool_decide (path = lit "/tmp/upload_1") then Ok Fixture.sampleArchive
       else Throw OtherError;
     parseAndSaveNotes := fun _ _ => Ok 2 |}.

End Requests.

(** * Properties *)

Import KeepParser.

(** ** Strings *)

Section StringFacts.
Implicit Types (s t pat : jsstring) (c : unit16).

Lemma trimStart_suffix s : exists w, s = w ++ trimStart s /\ forallb isWhiteSpace w = true.
Proof.
  induction s as [|c s [w [E W]]]; simpl.
  - by exists [].
  - destruct (isWhiteSpace c) eqn:Hc.
    + exists (c :: w). simpl. rewrite Hc, W. split; [by rewrite <- E | done].
    + by exists [].
Qed.

Lemma trimStart_head s c : head (trimStart s) = Some c -> isWhiteSpace c = false.
Proof.
  induction s as [|d s IH]; simpl; [done|].
  destruct (isWhiteSpace d) eqn:Hd; [done|].
  simpl. congruence.
Qed.

Lemma trimStart_id s :
  (forall c, head s = Some c -> isWhiteSpace c = false) -> trimStart s = s.
Proof.
  destruct s as [|d s]; simpl; [done|].
  intros H. by rewrite (H d eq_refl).
Qed.

Lemma trimStart_whitespace s : forallb isWhiteSpace s = true -> trimStart s = [].
Proof.
  induction s as [|d s IH]; simpl; [done|].
  intros [Hd Hs]%andb_prop. rewrite Hd. auto.
Qed.

Lemma trimEnd_prefix s : exists w, s = trimEnd s ++ w /\ forallb isWhiteSpace w = true.
Proof.
  unfold trimEnd.
  destruct (trimStart_suffix (reverse s)) as [w [E W]].
  exists (reverse w). split.
  - rewrite <- reverse_app, <- E. by rewrite reverse_involutive.
  - apply forallb_forall. intros x Hx. rewrite forallb_forall in W.
    apply W. apply list_elem_of_In. apply list_elem_of_In in Hx.
    by rewrite elem_of_reverse in Hx.
Qed.

Lemma trimEnd_last s c : last (trimEnd s) = Some c -> isWhiteSpace c = false.
Proof.
  unfold trimEnd. rewrite last_reverse. apply trimStart_head.
Qed.

Lemma trimEnd_id s :
  (forall c, last s = Some c -> isWhiteSpace c = false) -> trimEnd s = s.
Proof.
  intros H. unfold trimEnd. rewrite trimStart_id.
  - apply reverse_involutive.
  - intros c. rewrite head_reverse. apply H.
Qed.

Lemma trimEnd_head s c : head (trimEnd s) = Some c -> head s = Some c.
Proof.
  destruct (trimEnd_prefix s) as [w [E _]].
  intros H. rewrite E. destruct (trimEnd s); [done|]. simpl in *. done.
Qed.

Lemma trim_isTrimmed s : isTrimmed (trim s).
Proof.
  split; intros c H; unfold trim in *.
  - apply trimEnd_head in H. by apply trimStart_head in H.
  - by apply trimEnd_last in H.
Qed.

Lemma trim_id s : isTrimmed s -> trim s = s.
Proof.
  intros [H1 H2]. unfold trim. rewrite (trimStart_id s H1). by apply trimEnd_id.
Qed.

Lemma trim_idempotent s : trim (trim s) = trim s.
Proof. apply trim_id, trim_isTrimmed. Qed.

Lemma trim_whitespace s : forallb isWhiteSpace s = true -> trim s = [].
Proof.
  intros H. unfold trim. by rewrite (trimStart_whitespace s H).
Qed.

End StringFacts.

(** ** Substring tests *)

Section SubstringFacts.
Implicit Types (s t pat : jsstring).

Lemma startsWith_spec s pat : startsWith s pat = true <-> exists t, s = pat ++ t.
Proof.
  revert s. induction pat as [|p pat IH]; intros s.
  - destruct s; simpl; (split; [eauto | done]).
  - destruct s as [|c s]; simpl.
    + split; [done | by intros [t Ht]].
    + rewrite andb_true_iff, N.eqb_eq, IH. split.
      * intros [-> [t ->]]. by exists t.
      * intros [t Ht]. injection Ht as -> ->. split; [done | by exists t].
Qed.

Lemma includes_spec s pat :
  includes s pat = true <-> exists l1 l2, s = l1 ++ pat ++ l2.
Proof.
  induction s as [|c s IH].
  - change (includes [] pat) with (startsWith [] pat || false).
    rewrite orb_false_r, startsWith_spec. split.
    + intros [t Ht]. by exists [], t.
    + intros [l1 [l2 H]]. destruct l1; [by exists l2 | done].
  - change (includes (c :: s) pat) with (startsWith (c :: s) pat || includes s pat).
    rewrite orb_true_iff, startsWith_spec, IH. split.
    + intros [[t Ht] | [l1 [l2 H]]].
      * by exists [], t.
      * exists (c :: l1), l2. by rewrite H.
    + intros [[|d l1] [l2 H]].
      * left. by exists l2.
      * right. injection H as -> ->. by exists l1, l2.
Qed.

Lemma endsWith_spec s pat : endsWith s pat = true <-> exists l1, s = l1 ++ pat.
Proof.
  unfold endsWith. rewrite startsWith_spec. split.
  - intros [t Ht]. exists (reverse t).
    rewrite <- (reverse_involutive s), Ht, reverse_app.
    by rewrite reverse_involutive.
  - intros [l1 ->]. exists (reverse l1). by rewrite reverse_app.
Qed.

Lemma includes_toLowerCase s pat :
  includes (toLowerCase s) (toLowerCase pat) = true <-> containsIgnoringCase s pat.
Proof.
  rewrite includes_spec. unfold containsIgnoringCase, sameIgnoringCase, toLowerCase.
  split.
  - intros [k1 [k2 H]].
    apply fmap_app_inv in H as [l1 [r [-> [Hr ->]]]].
    symmetry in Hr. apply fmap_app_inv in Hr as [m [l2 [Hm [-> ->]]]].
    by exists l1, m, l2.
  - intros [l1 [m [l2 [-> Hm]]]].
    exists (lowerUnit <$> l1), (lowerUnit <$> l2).
    by rewrite !fmap_app, Hm.
Qed.

Lemma endsWith_toLowerCase s pat :
  endsWith (toLowerCase s) (toLowerCase pat) = true <-> endsWithIgnoringCase s pat.
Proof.
  rewrite endsWith_spec. unfold endsWithIgnoringCase, sameIgnoringCase, toLowerCase.
  split.
  - intros [k1 H].
    apply fmap_app_inv in H as [l1 [m [-> [Hm ->]]]].
    by exists l1, m.
  - intros [l1 [m [-> Hm]]].
    exists (lowerUnit <$> l1). by rewrite fmap_app, Hm.
Qed.

End SubstringFacts.

(** C3. An archive entry passes the path filter of the Archive Scanner if and
    only if, ignoring letter case, its path contains "keep", ends with
    ".html" and does not contain "label"; so an entry that violates any one
    of the three conditions is excluded. *)
Theorem isKeepHtmlFile_iff (entryName : jsstring) :
  isKeepHtmlFile entryName = true <->
    containsIgnoringCase entryName (lit "keep") /\
    endsWithIgnoringCase entryName (lit ".html") /\
    ~ containsIgnoringCase entryName (lit "label").
Proof.
  unfold isKeepHtmlFile. cbv zeta.
  rewrite !andb_true_iff, negb_true_iff.
  rewrite <- (includes_toLowerCase entryName (lit "keep")).
  rewrite <- (endsWith_toLowerCase entryName (lit ".html")).
  rewrite <- (includes_toLowerCase entryName (lit "label")).
  change (toLowerCase (lit "keep")) with (lit "keep").
  change (toLowerCase (lit ".html")) with (lit ".html").
  change (toLowerCase (lit "label")) with (lit "label").
  rewrite not_true_iff_false. tauto.
Qed.

(** ** The content normalization helper *)

Section FormatFacts.
Implicit Types (s t : jsstring) (run : nat).

Lemma replace_crlf_id s : noCarriageReturn s -> replace_crlf s = s.
Proof.
  unfold noCarriageReturn.
  induction s as [|c s IH]; [done|].
  intros H. apply not_elem_of_cons in H as [Hc Hs].
  specialize (IH Hs).
  destruct s as [|d s].
  - done.
  - change (replace_crlf (c :: d :: s))
      with (if (c =? CR) && (d =? LF) then LF :: replace_crlf s
            else c :: replace_crlf (d :: s)).
    destruct (N.eqb_spec c CR) as [->|_]; [done|].
    simpl andb. by rewrite IH.
Qed.

Lemma replace_cr_id s : noCarriageReturn s -> replace_cr s = s.
Proof.
  unfold noCarriageReturn, replace_cr.
  induction s as [|c s IH]; [done|].
  intros H. apply not_elem_of_cons in H as [Hc Hs].
  rewrite fmap_cons, (IH Hs).
  by destruct (N.eqb_spec c CR).
Qed.

Lemma noTripleNewline_app_r s t : noTripleNewline (s ++ t) -> noTripleNewline t.
Proof.
  intros H l1 l2 ->. apply (H (s ++ l1) l2). by rewrite <- !app_assoc.
Qed.

Lemma collapse_newlines_id run s :
  (run <= 2)%nat ->
  noTripleNewline (replicate run LF ++ s) ->
  collapse_newlines run s = replicate run LF ++ s.
Proof.
  revert run. induction s as [|c s IH]; intros run Hrun H; simpl.
  - unfold flush_newlines. by rewrite Nat.min_l, app_nil_r.
  - destruct (N.eqb_spec c LF) as [->|Hc].
    + assert (run <> 2)%nat as Hne.
      { intros ->. by apply (H [] s). }
      rewrite IH.
      * by rewrite replicate_S_end, <- app_assoc.
      * lia.
      * by rewrite replicate_S_end, <- app_assoc.
    + unfold flush_newlines. rewrite Nat.min_l by done.
      rewrite (IH 0%nat); [done | lia |].
      apply (noTripleNewline_app_r (replicate run LF ++ [c])).
      by rewrite <- app_assoc.
Qed.

Lemma trim_infix s : exists w1 w2, s = w1 ++ trim s ++ w2.
Proof.
  unfold trim.
  destruct (trimStart_suffix s) as [w1 [E1 _]].
  destruct (trimEnd_prefix (trimStart s)) as [w2 [E2 _]].
  exists w1, w2. by rewrite <- E2.
Qed.

Lemma replace_cr_noCarriageReturn s : noCarriageReturn (replace_cr s).
Proof.
  unfold noCarriageReturn, replace_cr.
  induction s as [|c s IH]; [apply not_elem_of_nil|].
  rewrite fmap_cons. apply not_elem_of_cons. split; [|done].
  by destruct (N.eqb_spec c CR).
Qed.

Lemma flush_newlines_noCarriageReturn run : noCarriageReturn (flush_newlines run).
Proof.
  unfold noCarriageReturn, flush_newlines.
  intros [H _]%elem_of_replicate. done.
Qed.

Lemma collapse_newlines_noCarriageReturn run s :
  noCarriageReturn s -> noCarriageReturn (collapse_newlines run s).
Proof.
  unfold noCarriageReturn. revert run.
  induction s as [|c s IH]; intros run H; simpl.
  - apply flush_newlines_noCarriageReturn.
  - apply not_elem_of_cons in H as [Hc Hs].
    destruct (c =? LF); [by apply IH|].
    rewrite elem_of_app, elem_of_cons.
    intros [H | [H | H]].
    + by apply (flush_newlines_noCarriageReturn run).
    + done.
    + by apply (IH 0%nat).
Qed.

Lemma noCarriageReturn_trim s : noCarriageReturn s -> noCarriageReturn (trim s).
Proof.
  unfold noCarriageReturn. intros H Hin.
  destruct (trim_infix s) as (w1 & w2 & E).
  apply H. rewrite E, !elem_of_app. auto.
Qed.

Lemma noTripleNewline_trim s : noTripleNewline s -> noTripleNewline (trim s).
Proof.
  intros H l1 l2 E.
  destruct (trim_infix s) as (w1 & w2 & Es).
  apply (H (w1 ++ l1) (l2 ++ w2)). rewrite Es, E.
  by rewrite <- !app_assoc.
Qed.

Lemma includes_triple_flush run c t :
  c <> LF ->
  includes t [LF; LF; LF] = false ->
  includes (flush_newlines run ++ c :: t) [LF; LF; LF] = false.
Proof.
  intros Hc Ht. apply N.eqb_neq in Hc.
  assert (includes (c :: t) [LF; LF; LF] = false) as H0.
  { simpl. by rewrite Hc, Ht. }
  assert (includes (LF :: c :: t) [LF; LF; LF] = false) as H1.
  { change (includes (LF :: c :: t) [LF; LF; LF])
      with (startsWith (LF :: c :: t) [LF; LF; LF] || includes (c :: t) [LF; LF; LF]).
    rewrite H0. simpl. by rewrite Hc. }
  assert (includes (LF :: LF :: c :: t) [LF; LF; LF] = false) as H2.
  { change (includes (LF :: LF :: c :: t) [LF; LF; LF])
      with (startsWith (LF :: LF :: c :: t) [LF; LF; LF]
            || includes (LF :: c :: t) [LF; LF; LF]).
    rewrite H1. simpl. by rewrite Hc. }
  unfold flush_newlines.
  destruct run as [|[|run]]; [exact H0 | exact H1 |].
  replace (Nat.min (S (S run)) 2) with 2%nat by lia. exact H2.
Qed.

Lemma collapse_newlines_includes run s :
  includes (collapse_newlines run s) [LF; LF; LF] = false.
Proof.
  revert run. induction s as [|c s IH]; intros run; simpl.
  - unfold flush_newlines. destruct run as [|[|run]]; [done | done |].
    by replace (Nat.min (S (S run)) 2) with 2%nat by lia.
  - destruct (N.eqb_spec c LF) as [->|Hc]; [apply IH|].
    by apply includes_triple_flush.
Qed.

Lemma formatNoteContent_outputForm s : outputForm (formatNoteContent s).
Proof.
  unfold formatNoteContent. split; [|split].
  - apply noCarriageReturn_trim, collapse_newlines_noCarriageReturn,
      replace_cr_noCarriageReturn.
  - apply noTripleNewline_trim.
    intros l1 l2 E.
    pose proof (collapse_newlines_includes 0 (replace_cr (replace_crlf s))) as H.
    assert (includes (collapse_newlines 0 (replace_cr (replace_crlf s))) [LF; LF; LF]
            = true) as H'; [|congruence].
    apply includes_spec. by exists l1, l2.
  - apply trim_isTrimmed.
Qed.

End FormatFacts.

Lemma formatNoteContent_id (s : jsstring) : outputForm s -> formatNoteContent s = s.
Proof.
  intros (Hcr & Hnl & Htrim). unfold formatNoteContent.
  rewrite (replace_crlf_id s Hcr), (replace_cr_id s Hcr).
  rewrite (collapse_newlines_id 0 s); [| lia | done].
  by apply trim_id.
Qed.

Lemma formatNoteContent_idempotent (s : jsstring) :
  formatNoteContent (formatNoteContent s) = formatNoteContent s.
Proof. apply formatNoteContent_id, formatNoteContent_outputForm. Qed.

(** C9. A string that already has the output form of the content
    normalization helper (no carriage return left, no run of three or more
    consecutive newlines, no leading or trailing whitespace) is returned
    unchanged by the helper. *)
Theorem formatNoteContent_fixes_outputForm (s : jsstring) :
  noCarriageReturn s ->
  noTripleNewline s ->
  isTrimmed s ->
  formatNoteContent s = s.
Proof.
  intros Hcr Hnl Htrim. by apply formatNoteContent_id.
Qed.

(** ** Exceptions *)

Lemma bind_Ok {A B : Type} (m : result A) (f : A -> result B) (b : B) :
  (x ← m; f x) = Ok b <-> exists a, m = Ok a /\ f a = Ok b.
Proof.
  destruct m as [a|e]; simpl.
  - split; [by exists a | by intros [a' [[= ->] H]]].
  - split; [done | by intros [a' [? _]]].
Qed.

Lemma bind_Throw {A B : Type} (m : result A) (f : A -> result B) (e : exn) :
  (x ← m; f x) = Throw e <-> m = Throw e \/ exists a, m = Ok a /\ f a = Throw e.
Proof.
  destruct m as [a|e']; simpl.
  - split; [intros ?; right; by exists a | by intros [? | [a' [[= ->] H]]]].
  - split; [intros [= ->]; by left | intros [[= ->] | [a' [? _]]]; done].
Qed.

(** ** The checklist *)

Lemma renderChecklistItem_Ok (item : value) (line : jsstring) :
  renderChecklistItem item = Ok line <-> isLineOf item line.
Proof.
  unfold renderChecklistItem, isLineOf, itemDisplayText. split.
  - intros (v & Hv & (checked & Hc & (text & Ht & [= <-])%bind_Ok)%bind_Ok)%bind_Ok.
    exists checked, text. rewrite Hv. simpl. done.
  - intros (checked & text & Hc & (v & Hv & Ht)%bind_Ok & ->).
    rewrite Hv, Hc. simpl. by rewrite Ht.
Qed.

Lemma itemDisplayText_renders (item : value) (text : jsstring) :
  itemDisplayText item = Ok text -> exists line, renderChecklistItem item = Ok line.
Proof.
  intros Ht.
  assert (exists checked, getProp item (lit "checked") = Ok checked) as [checked Hc].
  { destruct item; simpl; first [by eexists; reflexivity | done]. }
  exists (checklistLine (strictEqualsTrue checked) text).
  apply renderChecklistItem_Ok. by exists checked, text.
Qed.

Lemma isLineOf_box (item : value) (line : jsstring) :
  isLineOf item line -> hasLineOf item line.
Proof.
  intros (checked & text & Hc & Ht & ->).
  exists text. split; [done|]. rewrite Hc. split.
  - by intros [= ->].
  - intros Hne. destruct checked as [| |[|]| | | |]; try done.
Qed.

Lemma trim_nil_whitespace (s : jsstring) : trim s = [] -> forallb isWhiteSpace s = true.
Proof.
  unfold trim. intros H.
  destruct (trimStart_suffix s) as [w1 [E1 W1]].
  destruct (trimEnd_prefix (trimStart s)) as [w2 [E2 W2]].
  rewrite H in E2. simpl in E2. rewrite E1, E2.
  rewrite forallb_app. by rewrite W1, W2.
Qed.

Lemma trim_head_nonempty (s : jsstring) (c : unit16) :
  head s = Some c -> isWhiteSpace c = false -> trim s <> [].
Proof.
  intros Hs Hc Ht. apply trim_nil_whitespace in Ht.
  destruct s as [|d s]; [done|]. simpl in *.
  injection Hs as ->. by rewrite Hc in Ht.
Qed.

Lemma getPropOr_object (props : list (jsstring * value)) (k1 k2 : jsstring) (d : value) :
  getPropOr (VObj props) k1 k2 d
  = Ok (js_or (lookupProp k1 props) (js_or (lookupProp k2 props) d)).
Proof.
  unfold getPropOr, js_or. simpl.
  by destruct (truthy (lookupProp k1 props)).
Qed.

Lemma renderChecklist_Ok (items : list value) (acc lines : list jsstring) :
  renderChecklist items acc = Ok lines <->
  exists rendered,
    lines = acc ++ rendered /\
    Forall2 (fun item line => renderChecklistItem item = Ok line) items rendered.
Proof.
  revert acc. induction items as [|item items IH]; intros acc; simpl.
  - split.
    + intros [= <-]. exists []. by rewrite app_nil_r.
    + intros (rendered & -> & ->%Forall2_nil_inv_l). by rewrite app_nil_r.
  - rewrite bind_Ok. split.
    + intros (line & Hline & (rendered & -> & Hr)%IH).
      exists (line :: rendered). rewrite <- app_assoc. split; [done|].
      by constructor.
    + intros (rendered & -> & (line & rest & Hline & Hrest & ->)%Forall2_cons_inv_l).
      exists line. split; [done|]. apply IH. exists rest.
      by rewrite <- app_assoc.
Qed.

Section ExtractorFacts.
Context (P : Platform).

Lemma extractNoteFromJsonLd_Some (data : value) (note : ParsedNote) :
  extractNoteFromJsonLd P data = Ok (Some note) <->
  exists t c ts,
    getPropOr data (lit "name") (lit "headline") (VStr []) = Ok (VStr t) /\
    structuredContent data = Ok (VStr c) /\
    trim c <> [] /\
    recoverCreatedAt P data = Ok ts /\
    note = {| title := trim t; content := trim c; createdAt := ts |}.
Proof.
  unfold extractNoteFromJsonLd. split.
  - intros (tv & Htv & (cv & Hcv & H)%bind_Ok)%bind_Ok.
    destruct (truthy cv); simpl in H; [|done].
    apply bind_Ok in H as (trimmed & Htr & H).
    destruct cv as [| | | |c| |]; simpl in Htr; try done.
    injection Htr as <-.
    destruct (trim c) as [|x tc] eqn:Hc; simpl in H; [done|].
    apply bind_Ok in H as (ts & Hts & (t' & Ht & [= <-])%bind_Ok).
    destruct tv as [| | | |t| |]; simpl in Ht; try done.
    injection Ht as <-.
    exists t, c, ts. by rewrite Hc.
  - intros (t & c & ts & -> & -> & Hc & -> & ->). simpl.
    destruct (bool_decide_reflect (c = [])) as [->|_]; [done|]. simpl.
    by destruct (trim c).
Qed.

Lemma extractNoteFromJsonLd_None (data : value) :
  extractNoteFromJsonLd P data = Ok None <->
  exists tv cv,
    getPropOr data (lit "name") (lit "headline") (VStr []) = Ok tv /\
    structuredContent data = Ok cv /\
    (truthy cv = false \/ exists c, cv = VStr c /\ trim c = []).
Proof.
  unfold extractNoteFromJsonLd. split.
  - intros (tv & Htv & (cv & Hcv & H)%bind_Ok)%bind_Ok.
    exists tv, cv. split; [done|]. split; [done|].
    destruct (truthy cv); simpl in H; [|by left].
    right. apply bind_Ok in H as (trimmed & Htr & H).
    destruct cv as [| | | |c| |]; simpl in Htr; try done.
    injection Htr as <-. exists c. split; [done|].
    destruct (trim c) as [|x tc]; simpl in H; [done|].
    by apply bind_Ok in H as (ts & Hts & (t' & Ht & ?)%bind_Ok).
  - intros (tv & cv & -> & -> & [Hf | (c & -> & Hc)]); simpl.
    + by rewrite Hf.
    + destruct (bool_decide (c = [])); simpl; [done|]. by rewrite Hc.
Qed.

End ExtractorFacts.

Lemma join_head (sep p : jsstring) (rest : list jsstring) (c : unit16) :
  head p = Some c -> head (join sep (p :: rest)) = Some c.
Proof.
  destruct p as [|d p]; [done|]. intros [= ->]. by destruct rest.
Qed.

Lemma structuredContent_checklist (data : value) (items : list value) :
  getProp data (lit "itemListElement") = Ok (VArr items) ->
  structuredContent data =
    (checklistItems ← renderChecklist items []; Ok (VStr (join [LF] checklistItems))).
Proof. intros H. unfold structuredContent. by rewrite H. Qed.


Lemma checklist_lines_not_blank (items : list value) (lines : list jsstring) :
  items <> [] -> Forall2 isLineOf items lines -> trim (join [LF] lines) <> [].
Proof.
  intros Hne Hlines.
  destruct Hlines as [|item line items' lines' (checked & text & _ & _ & ->) _];
    [done|].
  apply (trim_head_nonempty _ (if strictEqualsTrue checked then CHECKED_BOX
                               else UNCHECKED_BOX)).
  - by apply join_head.
  - by destruct (strictEqualsTrue checked).
Qed.

Lemma renderChecklist_total (items : list value) :
  Forall (fun item => exists text, itemDisplayText item = Ok text) items ->
  exists lines, renderChecklist items [] = Ok lines.
Proof.
  intros Hitems.
  assert (exists lines,
            Forall2 (fun item line => renderChecklistItem item = Ok line) items lines)
    as [lines Hlines].
  { induction Hitems as [|item items [text Ht] _ [lines IH]]; [by exists []|].
    destruct (itemDisplayText_renders item text Ht) as [line Hline].
    exists (line :: lines). by constructor. }
  exists lines. apply renderChecklist_Ok. by exists lines.
Qed.

(** C10. In the structured-data path every checklist item is rendered, and
    rendered with the checked box only when its [checked] field is exactly
    the boolean [true]; with any other value of the field (absent, [null],
    the string "true", the number 1, any other truthy value) it is rendered
    with the unchecked box. The content of the emitted note is made of one
    such line per item, in item order, and a note is emitted for a checklist
    that has items whose display texts convert. *)
Theorem checked_box_only_for_true (P : Platform) (data : value) (items : list value) :
  getProp data (lit "itemListElement") = Ok (VArr items) ->
  (forall note,
     extractNoteFromJsonLd P data = Ok (Some note) ->
     exists lines,
       content note = trim (join [LF] lines) /\
       Forall2 hasLineOf items lines) /\
  (items <> [] ->
   Forall (fun item => exists text, itemDisplayText item = Ok text) items ->
   forall t ts,
     getPropOr data (lit "name") (lit "headline") (VStr []) = Ok (VStr t) ->
     recoverCreatedAt P data = Ok ts ->
     exists note lines,
       extractNoteFromJsonLd P data = Ok (Some note) /\
       content note = trim (join [LF] lines) /\
       Forall2 hasLineOf items lines).
Proof.
  intros Hitems.
  pose proof (structuredContent_checklist data items Hitems) as Hcontent.
  split.
  - intros note (t & c & ts & _ & Hc & _ & _ & ->)%extractNoteFromJsonLd_Some.
    rewrite Hcontent in Hc.
    apply bind_Ok in Hc as (lines & (rendered & -> & Hr)%renderChecklist_Ok & [= <-]).
    exists rendered. split; [done|].
    eapply Forall2_impl; [exact Hr|]. intros item line Hline.
    by apply isLineOf_box, renderChecklistItem_Ok.
  - intros Hne Htexts t ts Ht Hts.
    destruct (renderChecklist_total items Htexts) as [lines Hlines].
    rewrite Hlines in Hcontent. simpl in Hcontent.
    apply renderChecklist_Ok in Hlines as (rendered & -> & Hr). simpl in Hcontent.
    assert (Forall2 isLineOf items rendered) as Hshape.
    { eapply Forall2_impl; [exact Hr|]. intros item line Hline.
      by apply renderChecklistItem_Ok. }
    exists {| title := trim t; content := trim (join [LF] rendered); createdAt := ts |},
      rendered.
    split; [|split; [done|]].
    + apply extractNoteFromJsonLd_Some. exists t, (join [LF] rendered), ts.
      repeat split; try done. by apply (checklist_lines_not_blank items).
    + eapply Forall2_impl; [exact Hshape|]. intros item line. apply isLineOf_box.
Qed.

(** ** Timestamp recovery *)

Lemma recoverCreatedAt_dateCreated (P : Platform) (data dateCreated : value) :
  getProp data (lit "dateCreated") = Ok dateCreated ->
  truthy dateCreated = true ->
  recoverCreatedAt P data = newDate P dateCreated.
Proof.
  intros H Ht. unfold recoverCreatedAt. rewrite H. simpl. by rewrite Ht.
Qed.

Lemma recoverCreatedAt_dateModified (P : Platform) (data dateCreated dateModified : value) :
  getProp data (lit "dateCreated") = Ok dateCreated ->
  truthy dateCreated = false ->
  getProp data (lit "dateModified") = Ok dateModified ->
  truthy dateModified = true ->
  recoverCreatedAt P data = newDate P dateModified.
Proof.
  intros Hc Htc Hm Htm. unfold recoverCreatedAt.
  rewrite Hc. simpl. rewrite Htc, Hm. simpl. by rewrite Htm.
Qed.

Lemma recoverCreatedAt_neither (P : Platform) (data dateCreated dateModified : value) :
  getProp data (lit "dateCreated") = Ok dateCreated ->
  truthy dateCreated = false ->
  getProp data (lit "dateModified") = Ok dateModified ->
  truthy dateModified = false ->
  recoverCreatedAt P data = Ok None.
Proof.
  intros Hc Htc Hm Htm. unfold recoverCreatedAt.
  rewrite Hc. simpl. rewrite Htc, Hm. simpl. by rewrite Htm.
Qed.

(** C2. A [dateCreated] that is present but does not parse as a date leaves
    the timestamp unset even when [dateModified] is present and parses:
    [dateModified] is only looked at when [dateCreated] is absent. *)
Theorem unparseable_dateCreated_hides_dateModified
    (P : Platform) (data dateCreated dateModified : value) (t : Z)
    (note : ParsedNote) :
  getProp data (lit "dateCreated") = Ok dateCreated ->
  truthy dateCreated = true ->
  newDate P dateCreated = Ok None ->
  getProp data (lit "dateModified") = Ok dateModified ->
  truthy dateModified = true ->
  newDate P dateModified = Ok (Some t) ->
  extractNoteFromJsonLd P data = Ok (Some note) ->
  createdAt note = None.
Proof.
  intros Hdc Htc Hnc _ _ _ (tt & c & ts & _ & _ & _ & Hts & ->)%extractNoteFromJsonLd_Some.
  unfold recoverCreatedAt in Hts. rewrite Hdc in Hts. simpl in Hts.
  rewrite Htc, Hnc in Hts. by injection Hts as <-.
Qed.

(** ** The two extraction paths *)

Lemma getPropOr_truthy (v : value) (k1 k2 : jsstring) (d : value) :
  truthy v = true -> exists r, getPropOr v k1 k2 d = Ok r.
Proof.
  intros Hv. unfold getPropOr.
  destruct v; simpl in *; try done;
    try (by eexists); destruct (truthy _); by eexists.
Qed.

Lemma parseLoaded_fallback (P : Platform) (doc : Document) :
  (parseLoaded P doc).1 = MarkupFallback <->
  jsonLdScript doc = None \/
  jsonLdScript doc = Some [] \/
  exists script,
    jsonLdScript doc = Some script /\ script <> [] /\
    ((exists e, JSON_parse P script = Throw e) \/
     (exists jsonData,
        JSON_parse P script = Ok jsonData /\
        (truthy (workingObject jsonData) = false \/
         exists e, extractNoteFromJsonLd P (workingObject jsonData) = Throw e))).
Proof.
  unfold parseLoaded, tryJsonLd.
  destruct (jsonLdScript doc) as [script|]; [|by split; [left|]].
  destruct (bool_decide_reflect (script = [])) as [->|Hne].
  { split; [right; by left | done]. }
  destruct (JSON_parse P script) as [jsonData|e] eqn:Hp; simpl.
  - destruct (truthy (workingObject jsonData)) eqn:Hw; simpl.
    + destruct (extractNoteFromJsonLd P (workingObject jsonData)) as [r|e] eqn:Hx;
        simpl.
      * split; [done|].
        intros [? | [? | (s' & Hs' & _ & [[e He] | (j & Hj & [? | [e He]])])]];
          simplify_eq; congruence.
      * split; [|done]. intros _. right. right. exists script.
        repeat split; try done. right. exists jsonData. split; [done|].
        right. by exists e.
    + split; [|done]. intros _. right. right. exists script.
      repeat split; try done. right. exists jsonData. split; [done|]. by left.
  - split; [|done]. intros _. right. right. exists script.
    repeat split; try done. left. by exists e.
Qed.

(** C1 (amended). The markup fallback is attempted exactly when no
    structured-data block is found or the block is empty, or its payload
    fails to parse as JSON, or the payload parses but the working object (the
    payload, or its first element when it is an array) is falsy, or the
    structured extraction throws. When the payload parses to a truthy working
    object whose content is empty, extraction yields none and the fallback is
    not attempted. *)
Theorem fallback_attempted_iff (P : Platform) (doc : Document) :
  ((parseLoaded P doc).1 = MarkupFallback <->
   jsonLdScript doc = None \/
   jsonLdScript doc = Some [] \/
   exists script,
     jsonLdScript doc = Some script /\ script <> [] /\
     ((exists e, JSON_parse P script = Throw e) \/
      (exists jsonData,
         JSON_parse P script = Ok jsonData /\
         (truthy (workingObject jsonData) = false \/
          exists e, extractNoteFromJsonLd P (workingObject jsonData) = Throw e)))) /\
  (forall script jsonData cv,
     jsonLdScript doc = Some script -> script <> [] ->
     JSON_parse P script = Ok jsonData ->
     truthy (workingObject jsonData) = true ->
     structuredContent (workingObject jsonData) = Ok cv ->
     emptyContent cv ->
     parseLoaded P doc = (StructuredData, None)).
Proof.
  split; [apply parseLoaded_fallback|].
  intros script jsonData cv Hs Hne Hp Hw Hc He.
  assert (extractNoteFromJsonLd P (workingObject jsonData) = Ok None) as Hx.
  { apply extractNoteFromJsonLd_None.
    destruct (getPropOr_truthy (workingObject jsonData) (lit "name") (lit "headline")
                (VStr []) Hw) as [tv Htv].
    by exists tv, cv. }
  unfold parseLoaded, tryJsonLd. rewrite Hs.
  destruct (bool_decide_reflect (script = [])) as [?|_]; [done|].
  rewrite Hp. simpl. by rewrite Hw, Hx.
Qed.

(** C1, as stated, fails on a page whose structured-data block is the JSON
    array [[]]: the payload parses, the working object is [undefined], and
    the parser goes on to the markup fallback. *)
Lemma fallback_after_parsed_payload :
  ~ fallbackOnlyWhenAbsentOrUnparsed Fixture.emptyArrayPlatform Fixture.emptyArrayPage.
Proof.
  unfold fallbackOnlyWhenAbsentOrUnparsed. intros [H _].
  destruct (H eq_refl) as [? | (script & e & [= <-] & ?)]; done.
Qed.

(** ** The scan *)

Lemma trim_nonempty_notBlank (s : jsstring) : trim s <> [] -> notBlank s.
Proof.
  intros H. split.
  - intros ->. by apply H.
  - destruct (forallb isWhiteSpace s) eqn:Hs; [|done].
    by apply trim_whitespace in Hs.
Qed.

Lemma trim_notBlank (s : jsstring) : trim s <> [] -> notBlank (trim s).
Proof.
  intros H. apply trim_nonempty_notBlank. by rewrite trim_idempotent.
Qed.

Lemma length_pos_nonempty (s : jsstring) : (0 <? length s)%nat = true -> s <> [].
Proof. by destruct s. Qed.

Section ScanFacts.
Context (P : Platform).

Lemma scanStep_producedNote (parsedNotes : list ParsedNote) (entry : ZipEntry) :
  scanStep P parsedNotes entry = parsedNotes ++ option_list (producedNote P entry).
Proof.
  unfold scanStep, producedNote.
  destruct (isKeepHtmlFile (entryName entry)); [|by rewrite app_nil_r].
  destruct (parseEntry P entry) as [[note|]|e]; try by rewrite app_nil_r.
  destruct (0 <? length (trim (content note)))%nat; [done | by rewrite app_nil_r].
Qed.

Lemma foldl_scanStep (entries : list ZipEntry) (acc : list ParsedNote) :
  foldl (scanStep P) acc entries = acc ++ omap (producedNote P) entries.
Proof.
  revert acc. induction entries as [|entry entries IH]; intros acc; simpl.
  - by rewrite app_nil_r.
  - rewrite IH, scanStep_producedNote, <- app_assoc. f_equal.
    by destruct (producedNote P entry).
Qed.

Lemma scanEntries_omap (entries : list ZipEntry) :
  scanEntries P entries = omap (producedNote P) entries.
Proof. apply foldl_scanStep. Qed.

Lemma producedNote_content (entry : ZipEntry) (note : ParsedNote) :
  producedNote P entry = Some note -> trim (content note) <> [].
Proof.
  unfold producedNote.
  destruct (isKeepHtmlFile (entryName entry)); [|done].
  destruct (parseEntry P entry) as [[n|]|e]; try done.
  destruct (0 <? length (trim (content n)))%nat eqn:Hlen; [|done].
  intros [= <-]. by apply length_pos_nonempty.
Qed.

Lemma producedNote_throwsOn (entry : ZipEntry) :
  throwsOn P entry = true -> producedNote P entry = None.
Proof.
  unfold throwsOn, producedNote.
  destruct (isKeepHtmlFile (entryName entry)); [|done].
  by destruct (parseEntry P entry) as [[n|]|e].
Qed.

Lemma extractNoteFromHtml_content (doc : Document) (note : ParsedNote) :
  extractNoteFromHtml doc = Some note -> trim (content note) <> [].
Proof.
  unfold extractNoteFromHtml.
  set (c := trim (collapse_whitespace false _)).
  destruct c as [|x c'] eqn:Hc; simpl; [done|].
  intros [= <-]. simpl. rewrite <- Hc. subst c.
  rewrite !trim_idempotent. by rewrite Hc.
Qed.

End ScanFacts.

Lemma omap_order {A B : Type} (f : A -> option B) (l : list A) (i j : nat) (y z : B) :
  omap f l !! i = Some y ->
  omap f l !! j = Some z ->
  (i < j)%nat ->
  exists i' j' x x',
    (i' < j')%nat /\ l !! i' = Some x /\ l !! j' = Some x' /\
    f x = Some y /\ f x' = Some z.
Proof.
  revert i j. induction l as [|a l IH]; intros i j Hi Hj Hlt; [done|].
  simpl in Hi, Hj. destruct (f a) as [b|] eqn:Hfa.
  - destruct i as [|i]; destruct j as [|j]; try lia; simpl in *.
    + injection Hi as <-.
      apply list_elem_of_lookup_2 in Hj.
      apply list_elem_of_omap in Hj as (x' & Hx' & Hfx').
      apply list_elem_of_lookup_1 in Hx' as [j' Hj'].
      exists 0%nat, (S j'), a, x'. repeat split; try done. lia.
    + destruct (IH i j Hi Hj ltac:(lia)) as (i' & j' & x & x' & ? & ? & ? & ? & ?).
      exists (S i'), (S j'), x, x'. repeat split; try done. lia.
  - destruct (IH i j Hi Hj Hlt) as (i' & j' & x & x' & ? & ? & ? & ? & ?).
    exists (S i'), (S j'), x, x'. repeat split; try done. lia.
Qed.

Lemma omap_filter_None {A B : Type} (f : A -> option B) (bad : A -> bool) (l : list A) :
  (forall x, bad x = true -> f x = None) ->
  omap f (filter (fun x => bad x = false) l) = omap f l.
Proof.
  intros H. induction l as [|a l IH]; [done|].
  rewrite filter_cons. destruct (decide (bad a = false)) as [Hk|Hk]; simpl.
  - destruct (f a); [f_equal|]; exact IH.
  - apply not_false_is_true in Hk. rewrite (H a Hk). exact IH.
Qed.

Lemma parseLoaded_source (P : Platform) (doc : Document) (note : ParsedNote) :
  (parseLoaded P doc).2 = Some note ->
  extractNoteFromHtml doc = Some note \/
  exists data, extractNoteFromJsonLd P data = Ok (Some note).
Proof.
  unfold parseLoaded, tryJsonLd.
  destruct (jsonLdScript doc) as [script|]; [|by left].
  destruct (bool_decide (script = [])); [by left|].
  destruct (JSON_parse P script) as [jsonData|e]; simpl; [|by left].
  destruct (truthy (workingObject jsonData)); simpl; [|by left].
  destruct (extractNoteFromJsonLd P (workingObject jsonData)) as [r|e] eqn:Hx;
    simpl; [|by left].
  intros ->. right. by exists (workingObject jsonData).
Qed.

(** C5. No Parsed Note is emitted with empty or whitespace-only content:
    not by the pipeline over an archive, not by the structured-data
    extraction, not by the markup fallback, and so not by the Note Extractor
    on a document. *)
Theorem emitted_content_not_blank (P : Platform) :
  (forall zipBuffer notes note,
     parseGoogleKeepTakeout P zipBuffer = Ok notes ->
     note ∈ notes ->
     notBlank (content note)) /\
  (forall data note,
     extractNoteFromJsonLd P data = Ok (Some note) -> notBlank (content note)) /\
  (forall doc note,
     extractNoteFromHtml doc = Some note -> notBlank (content note)) /\
  (forall html note,
     parseKeepHtmlNote P html = Ok (Some note) -> notBlank (content note)).
Proof.
  assert (forall data note,
            extractNoteFromJsonLd P data = Ok (Some note) -> notBlank (content note))
    as Hjson.
  { intros data note (t & c & ts & _ & _ & Hc & _ & ->)%extractNoteFromJsonLd_Some.
    by apply trim_notBlank. }
  assert (forall doc note,
            extractNoteFromHtml doc = Some note -> notBlank (content note))
    as Hhtml.
  { intros doc note H%extractNoteFromHtml_content.
    by apply trim_nonempty_notBlank. }
  split; [|split; [exact Hjson | split; [exact Hhtml|]]].
  - intros zipBuffer notes note (entries & _ & [= <-])%bind_Ok Hin.
    rewrite scanEntries_omap in Hin.
    apply list_elem_of_omap in Hin as (entry & _ & Hn).
    apply producedNote_content in Hn. by apply trim_nonempty_notBlank.
  - intros html note (doc & _ & [= Hd])%bind_Ok.
    apply parseLoaded_source in Hd as [Hd | [data Hd]]; eauto.
Qed.

(** C6. The notes of the output are the notes the archive entries produce,
    in the enumeration order of the entries: the output is the sequence of
    entries restricted to those that produced a note, and two notes of the
    output come from two entries in the same relative order. *)
Theorem output_follows_entry_order
    (P : Platform) (zipBuffer : Buffer) (entries : list ZipEntry) :
  AdmZip_getEntries P zipBuffer = Ok entries ->
  exists notes,
    parseGoogleKeepTakeout P zipBuffer = Ok notes /\
    notes = omap (producedNote P) entries /\
    forall i j ni nj,
      notes !! i = Some ni -> notes !! j = Some nj -> (i < j)%nat ->
      exists i' j' ei ej,
        (i' < j')%nat /\
        entries !! i' = Some ei /\ entries !! j' = Some ej /\
        producedNote P ei = Some ni /\ producedNote P ej = Some nj.
Proof.
  intros Hentries. exists (omap (producedNote P) entries).
  split; [|split; [done|]].
  - unfold parseGoogleKeepTakeout. rewrite Hentries. simpl.
    by rewrite scanEntries_omap.
  - intros i j ni nj. apply omap_order.
Qed.

Lemma parseEntry_extractionThrows
    (P : Platform) (entry : ZipEntry) (data : Buffer) (doc : Document) :
  getData entry = Ok data ->
  cheerio_load P (Buffer_toString_utf8 P data) = Ok doc ->
  extractionThrows P doc = true ->
  parseEntry P entry = Ok (extractNoteFromHtml doc).
Proof.
  intros Hdata Hdoc Hthrows.
  unfold parseEntry, parseKeepHtmlNote. rewrite Hdata. simpl. rewrite Hdoc. simpl.
  f_equal. revert Hthrows. unfold extractionThrows, parseLoaded, tryJsonLd.
  destruct (jsonLdScript doc) as [script|]; [|done].
  destruct (bool_decide (script = [])); [done|]. simpl.
  destruct (JSON_parse P script) as [jsonData|e]; simpl; [|done].
  destruct (truthy (workingObject jsonData)); simpl; [|done].
  by destruct (extractNoteFromJsonLd P (workingObject jsonData)).
Qed.

(** C7 (amended). A candidate entry is skipped when the decoding of its
    bytes or the loading of its markup throws, so that the exception leaves
    the processing of the entry: the import of a readable archive never
    throws, its output is made of the notes of the entries that do not throw,
    in order, and the entries before and after a throwing entry contribute
    as if it were not there. An exception of the structured-data extraction
    does not skip the entry: it is caught inside the Note Extractor and the
    entry contributes what the markup fallback extracts. *)
Theorem throwing_entry_is_skipped
    (P : Platform) (zipBuffer : Buffer) (entries : list ZipEntry) :
  AdmZip_getEntries P zipBuffer = Ok entries ->
  parseGoogleKeepTakeout P zipBuffer
  = Ok (omap (producedNote P)
          (filter (fun entry => throwsOn P entry = false) entries)) /\
  (forall before entry after,
     entries = before ++ entry :: after ->
     throwsOn P entry = true ->
     producedNote P entry = None /\
     parseGoogleKeepTakeout P zipBuffer
     = Ok (omap (producedNote P) before ++ omap (producedNote P) after)) /\
  (forall entry data doc,
     entry ∈ entries ->
     getData entry = Ok data ->
     cheerio_load P (Buffer_toString_utf8 P data) = Ok doc ->
     extractionThrows P doc = true ->
     throwsOn P entry = false /\
     parseEntry P entry = Ok (extractNoteFromHtml doc)).
Proof.
  intros Hentries. unfold parseGoogleKeepTakeout. rewrite Hentries. simpl.
  split; [|split].
  - rewrite scanEntries_omap. f_equal. symmetry.
    apply omap_filter_None, producedNote_throwsOn.
  - intros before entry after -> Hthrow.
    pose proof (producedNote_throwsOn P entry Hthrow) as Hnone.
    split; [done|].
    rewrite scanEntries_omap, omap_app. simpl. by rewrite Hnone.
  - intros entry data doc _ Hdata Hdoc Hthrows.
    pose proof (parseEntry_extractionThrows P entry data doc Hdata Hdoc Hthrows) as Hp.
    split; [|done]. unfold throwsOn. rewrite Hp. apply andb_false_r.
Qed.

(** C7, as stated, fails on an archive whose only entry has a structured-data
    block with a number as [name]: the structured extraction throws on the
    title, and the entry is not skipped but contributes the note of the
    markup fallback. *)
Lemma entry_with_throwing_extraction_is_not_skipped :
  ~ skipsEveryThrowingEntry Cases.numericNamePlatform [Cases.numericNameEntry].
Proof.
  unfold skipsEveryThrowingEntry. vm_compute. discriminate.
Qed.

(** ** The persisted records *)

Lemma substring0_cappedTo (n : N) (s : jsstring) : cappedTo n s (substring0 n s).
Proof.
  unfold cappedTo, substring0, jslength. split.
  - exists (drop (N.to_nat n) s). by rewrite take_drop.
  - rewrite length_take. lia.
Qed.

Lemma cappedTo_length (n : N) (s r : jsstring) : cappedTo n s r -> jslength r <= n.
Proof. intros [_ ->]. lia. Qed.

(** C8. Every record handed to storage comes from the Parsed Note at the
    same position: its title is the note's title capped to 255 characters,
    or the placeholder label when the note has no title; its content is the
    note's content capped to 65,535 characters; its creation timestamp is the
    note's recovered timestamp, or the current time when none was
    recovered. *)
Theorem persisted_record_shape
    (P : Platform) (clock : nat -> Z) (zipBuffer : Buffer) (userId : jsstring)
    (records : list GoogleKeepService.NoteCreateInput) :
  GoogleKeepService.parseAndSaveNotes P clock zipBuffer userId = Ok records ->
  exists notes,
    parseGoogleKeepTakeout P zipBuffer = Ok notes /\
    length records = length notes /\
    forall i note,
      notes !! i = Some note ->
      exists record,
        records !! i = Some record /\
        (title note <> [] ->
           cappedTo 255 (title note) (GoogleKeepService.title record)) /\
        (title note = [] ->
           GoogleKeepService.title record = lit "Imported Keep Note") /\
        jslength (GoogleKeepService.title record) <= 255 /\
        cappedTo 65535 (content note) (GoogleKeepService.content record) /\
        jslength (GoogleKeepService.content record) <= 65535 /\
        GoogleKeepService.userId record = userId /\
        (forall t, createdAt note = Some t ->
           GoogleKeepService.createdAt record = t) /\
        (createdAt note = None ->
           GoogleKeepService.createdAt record = clock i).
Proof.
  unfold GoogleKeepService.parseAndSaveNotes.
  intros (notes & Hnotes & H)%bind_Ok. exists notes. split; [done|].
  destruct (jslength notes =? 0); [done|].
  destruct (GoogleKeepService.MAX_NOTES_LIMIT <? jslength notes); [done|].
  injection H as <-. split; [apply length_imap|].
  intros i note Hi.
  exists (GoogleKeepService.toCreateInput userId (clock i) note).
  split; [by rewrite list_lookup_imap, Hi|].
  unfold GoogleKeepService.toCreateInput; simpl.
  pose proof (substring0_cappedTo 255 (title note)) as Ht.
  pose proof (substring0_cappedTo GoogleKeepService.MAX_CONTENT_LENGTH (content note))
    as Hc.
  pose proof (cappedTo_length _ _ _ Ht) as Htl.
  pose proof (cappedTo_length _ _ _ Hc) as Hcl.
  destruct (bool_decide_reflect (title note = [])) as [Hnil|Hne]; simpl;
    repeat split; try done; try apply Ht; try apply Hc;
    try (by intros t ->); by intros ->.
Qed.

(** ** The properties on the fixtures *)

Lemma noTripleNewline_includes (s : jsstring) :
  includes s [LF; LF; LF] = false -> noTripleNewline s.
Proof.
  intros H l1 l2 E.
  assert (includes s [LF; LF; LF] = true) as H'; [|congruence].
  apply includes_spec. by exists l1, l2.
Qed.

Lemma noCarriageReturn_forallb (s : jsstring) :
  forallb (fun c => negb (c =? CR)) s = true -> noCarriageReturn s.
Proof.
  unfold noCarriageReturn. induction s as [|c s IH]; simpl.
  - intros _. apply not_elem_of_nil.
  - intros [Hc Hs]%andb_prop. apply not_elem_of_cons. split; [|by apply IH].
    intros E. rewrite <- E, N.eqb_refl in Hc. done.
Qed.

Lemma isTrimmed_ends (s : jsstring) :
  match head s with Some c => isWhiteSpace c | None => false end = false ->
  match last s with Some c => isWhiteSpace c | None => false end = false ->
  isTrimmed s.
Proof.
  intros H1 H2. split; intros c Hc; by rewrite Hc in *.
Qed.

Example scan_of_sampleArchive :
  parseGoogleKeepTakeout Fixture.samplePlatform Fixture.sampleArchive
  = Ok [Fixture.note1; Fixture.plainNote].
Proof. vm_compute. reflexivity. Qed.

Example unchecked_renderings :
  renderChecklistItem (VObj [(lit "text", VStr (lit "a"))])
  = Ok (UNCHECKED_BOX :: SPACE :: lit "a") /\
  renderChecklistItem (VObj [(lit "text", VStr (lit "a")); (lit "checked", VNull)])
  = Ok (UNCHECKED_BOX :: SPACE :: lit "a") /\
  renderChecklistItem (VObj [(lit "text", VStr (lit "a")); (lit "checked", VNum (safeInteger 1))])
  = Ok (UNCHECKED_BOX :: SPACE :: lit "a") /\
  renderChecklistItem
    (VObj [(lit "text", VStr (lit "a")); (lit "checked", VStr (lit "true"))])
  = Ok (UNCHECKED_BOX :: SPACE :: lit "a") /\
  renderChecklistItem (VObj [(lit "text", VStr (lit "a")); (lit "checked", VBool true)])
  = Ok (CHECKED_BOX :: SPACE :: lit "a") /\
  renderChecklistItem VNull = Throw TypeError.
Proof. repeat split. Qed.

(** C9 on two paragraphs separated by one blank line. *)
Lemma formatNoteContent_fixes_twoParagraphs :
  noCarriageReturn Fixture.twoParagraphs /\
  noTripleNewline Fixture.twoParagraphs /\
  isTrimmed Fixture.twoParagraphs /\
  formatNoteContent Fixture.twoParagraphs = Fixture.twoParagraphs.
Proof.
  assert (noCarriageReturn Fixture.twoParagraphs) as H1.
  { apply noCarriageReturn_forallb. reflexivity. }
  assert (noTripleNewline Fixture.twoParagraphs) as H2.
  { apply noTripleNewline_includes. reflexivity. }
  assert (isTrimmed Fixture.twoParagraphs) as H3.
  { apply isTrimmed_ends; reflexivity. }
  exact (conj H1 (conj H2 (conj H3
    (formatNoteContent_fixes_outputForm Fixture.twoParagraphs H1 H2 H3)))).
Defined.

(** C10 on a checklist whose [checked] fields are the string "true", the
    number 1, the boolean [true] and absent: only the third item has the
    checked box. *)
Lemma mixedChecklist_boxes :
  getProp Cases.mixedChecklist (lit "itemListElement") = Ok (VArr Cases.mixedItems) /\
  extractNoteFromJsonLd Fixture.samplePlatform Cases.mixedChecklist
  = Ok (Some Cases.mixedNote) /\
  exists lines,
    content Cases.mixedNote = trim (join [LF] lines) /\
    Forall2 hasLineOf Cases.mixedItems lines.
Proof.
  split; [reflexivity|]. split; [reflexivity|].
  exact (proj1 (checked_box_only_for_true Fixture.samplePlatform Cases.mixedChecklist
                  Cases.mixedItems eq_refl)
           Cases.mixedNote eq_refl).
Defined.



(** C2 on a note whose [dateCreated] is not a date and whose [dateModified]
    is 2020-01-01T00:00:00.000Z: the timestamp is unset. *)
Lemma misdatedNote_has_no_timestamp :
  getProp Fixture.misdatedNote (lit "dateCreated") = Ok (VStr (lit "not a date")) /\
  truthy (VStr (lit "not a date")) = true /\
  newDate Fixture.samplePlatform (VStr (lit "not a date")) = Ok None /\
  getProp Fixture.misdatedNote (lit "dateModified") = Ok (VStr Fixture.isoDate) /\
  truthy (VStr Fixture.isoDate) = true /\
  newDate Fixture.samplePlatform (VStr Fixture.isoDate) = Ok (Some 1577836800000%Z) /\
  extractNoteFromJsonLd Fixture.samplePlatform Fixture.misdatedNote
  = Ok (Some {| title := []; content := lit "Hello"; createdAt := None |}) /\
  createdAt {| title := []; content := lit "Hello"; createdAt := None |} = None.
Proof.
  repeat (split; [reflexivity|]).
  exact (unparseable_dateCreated_hides_dateModified Fixture.samplePlatform
           Fixture.misdatedNote (VStr (lit "not a date")) (VStr Fixture.isoDate)
           1577836800000%Z
           {| title := []; content := lit "Hello"; createdAt := None |}
           eq_refl eq_refl eq_refl eq_refl eq_refl eq_refl eq_refl).
Defined.

(** C1 (amended) on a page whose structured-data block has a name and no
    content: none is extracted, although the body of the page has text. *)
Lemma untexted_page_yields_none :
  jsonLdScript Fixture.untexted_page = Some (lit Fixture.untexted_payload) /\
  lit Fixture.untexted_payload <> [] /\
  JSON_parse Fixture.samplePlatform (lit Fixture.untexted_payload)
  = Ok Fixture.untexted_value /\
  truthy (workingObject Fixture.untexted_value) = true /\
  structuredContent (workingObject Fixture.untexted_value) = Ok (VStr []) /\
  emptyContent (VStr []) /\
  parseLoaded Fixture.samplePlatform Fixture.untexted_page = (StructuredData, None).
Proof.
  assert (lit Fixture.untexted_payload <> []) as Hne by discriminate.
  assert (emptyContent (VStr [])) as Hempty by (left; reflexivity).
  repeat (split; [first [reflexivity | assumption]|]).
  exact (proj2 (fallback_attempted_iff Fixture.samplePlatform Fixture.untexted_page)
           (lit Fixture.untexted_payload) Fixture.untexted_value (VStr [])
           eq_refl Hne eq_refl eq_refl eq_refl Hempty).
Defined.

(** C5 on the sample archive. *)
Lemma sampleArchive_notes_not_blank :
  parseGoogleKeepTakeout Fixture.samplePlatform Fixture.sampleArchive
  = Ok [Fixture.note1; Fixture.plainNote] /\
  Fixture.plainNote ∈ [Fixture.note1; Fixture.plainNote] /\
  notBlank (content Fixture.plainNote).
Proof.
  assert (Fixture.plainNote ∈ [Fixture.note1; Fixture.plainNote]) as Hin.
  { constructor 2. constructor 1. }
  split; [vm_compute; reflexivity|]. split; [exact Hin|].
  refine (proj1 (emitted_content_not_blank Fixture.samplePlatform)
            Fixture.sampleArchive [Fixture.note1; Fixture.plainNote]
            Fixture.plainNote _ Hin).
  vm_compute; reflexivity.
Defined.

(** C6 on the sample archive. *)
Lemma sampleArchive_order :
  AdmZip_getEntries Fixture.samplePlatform Fixture.sampleArchive
  = Ok Fixture.sampleEntries /\
  exists notes,
    parseGoogleKeepTakeout Fixture.samplePlatform Fixture.sampleArchive = Ok notes /\
    notes = omap (producedNote Fixture.samplePlatform) Fixture.sampleEntries /\
    forall i j ni nj,
      notes !! i = Some ni -> notes !! j = Some nj -> (i < j)%nat ->
      exists i' j' ei ej,
        (i' < j')%nat /\
        Fixture.sampleEntries !! i' = Some ei /\
        Fixture.sampleEntries !! j' = Some ej /\
        producedNote Fixture.samplePlatform ei = Some ni /\
        producedNote Fixture.samplePlatform ej = Some nj.
Proof.
  split; [reflexivity|].
  exact (output_follows_entry_order Fixture.samplePlatform Fixture.sampleArchive
           Fixture.sampleEntries eq_refl).
Defined.

Example scan_of_numericNameEntry :
  someStepThrows Cases.numericNamePlatform Cases.numericNameEntry = true /\
  throwsOn Cases.numericNamePlatform Cases.numericNameEntry = false /\
  scanEntries Cases.numericNamePlatform [Cases.numericNameEntry]
  = [{| title := lit "Year"; content := lit "Hello"; createdAt := None |}].
Proof. vm_compute. done. Qed.

(** C7 (amended) on the sample archive, whose third entry cannot be
    inflated. *)
Lemma sampleArchive_skips_brokenEntry :
  AdmZip_getEntries Fixture.samplePlatform Fixture.sampleArchive
  = Ok Fixture.sampleEntries /\
  throwsOn Fixture.samplePlatform Fixture.brokenEntry = true /\
  producedNote Fixture.samplePlatform Fixture.brokenEntry = None /\
  parseGoogleKeepTakeout Fixture.samplePlatform Fixture.sampleArchive
  = Ok (omap (producedNote Fixture.samplePlatform) (take 2 Fixture.sampleEntries) ++
        omap (producedNote Fixture.samplePlatform) (drop 3 Fixture.sampleEntries)).
Proof.
  split; [reflexivity|]. split; [reflexivity|].
  exact (proj1 (proj2 (throwing_entry_is_skipped Fixture.samplePlatform
                         Fixture.sampleArchive Fixture.sampleEntries eq_refl))
           (take 2 Fixture.sampleEntries) Fixture.brokenEntry
           (drop 3 Fixture.sampleEntries) eq_refl eq_refl).
Defined.

(** C8 on the sample archive. *)
Lemma sampleArchive_records :
  GoogleKeepService.parseAndSaveNotes Fixture.samplePlatform Fixture.sampleClock
    Fixture.sampleArchive (lit "user-1")
  = Ok [ {| GoogleKeepService.title := lit "T";
            GoogleKeepService.content := lit "Hello";
            GoogleKeepService.userId := lit "user-1";
            GoogleKeepService.createdAt := 1700000000000%Z |};
         {| GoogleKeepService.title := lit "Plain";
            GoogleKeepService.content := lit "Hello world";
            GoogleKeepService.userId := lit "user-1";
            GoogleKeepService.createdAt := 1700000000001%Z |} ] /\
  exists notes,
    parseGoogleKeepTakeout Fixture.samplePlatform Fixture.sampleArchive = Ok notes /\
    length (imap (fun i note =>
                    GoogleKeepService.toCreateInput (lit "user-1")
                      (Fixture.sampleClock i) note)
                 [Fixture.note1; Fixture.plainNote]) = length notes /\
    forall i note,
      notes !! i = Some note ->
      exists record,
        imap (fun i note =>
                GoogleKeepService.toCreateInput (lit "user-1")
                  (Fixture.sampleClock i) note)
             [Fixture.note1; Fixture.plainNote] !! i = Some record /\
        (title note <> [] ->
           cappedTo 255 (title note) (GoogleKeepService.title record)) /\
        (title note = [] ->
           GoogleKeepService.title record = lit "Imported Keep Note") /\
        jslength (GoogleKeepService.title record) <= 255 /\
        cappedTo 65535 (content note) (GoogleKeepService.content record) /\
        jslength (GoogleKeepService.content record) <= 65535 /\
        GoogleKeepService.userId record = lit "user-1" /\
        (forall t, createdAt note = Some t ->
           GoogleKeepService.createdAt record = t) /\
        (createdAt note = None ->
           GoogleKeepService.createdAt record = Fixture.sampleClock i).
Proof.
  split; [vm_compute; reflexivity|].
  exact (persisted_record_shape Fixture.samplePlatform Fixture.sampleClock
           Fixture.sampleArchive (lit "user-1") _ eq_refl).
Defined.

(** ** Worked examples of the specification *)

Example lit_keep : lit "keep" = [107; 101; 101; 112].
Proof. reflexivity. Qed.

Example isKeepHtmlFile_note :
  isKeepHtmlFile (lit "Takeout/Keep/Note1.html") = true.
Proof. reflexivity. Qed.

Example isKeepHtmlFile_labels :
  isKeepHtmlFile (lit "Takeout/Keep/Labels/x.html") = false.
Proof. reflexivity. Qed.

Example isKeepHtmlFile_uppercase :
  isKeepHtmlFile (lit "TAKEOUT/KEEP/NOTE.HTML") = true.
Proof. reflexivity. Qed.

Example formatNoteContent_sample :
  formatNoteContent (lit "  a" ++ [CR; LF; CR; CR; LF; LF] ++ lit "b ")
  = lit "a" ++ [LF; LF] ++ lit "b".
Proof. reflexivity. Qed.

Example fallback_collapses_whitespace :
  extractNoteFromHtml Fixture.plain_page = Some Fixture.plainNote.
Proof. reflexivity. Qed.

Example structured_block_note :
  parseKeepHtmlNote Fixture.samplePlatform (lit Fixture.note1_html)
  = Ok (Some Fixture.note1).
Proof. vm_compute. reflexivity. Qed.

(** * Further properties of the code *)

(** ** The path filter and the scan *)

Lemma lowerUnit_idempotent (c : unit16) : lowerUnit (lowerUnit c) = lowerUnit c.
Proof.
  unfold lowerUnit.
  destruct (65 <=? c) eqn:H1; destruct (c <=? 90) eqn:H2; simpl.
  - apply N.leb_le in H1, H2.
    replace (c + 32 <=? 90) with false by (symmetry; apply N.leb_gt; lia).
    rewrite andb_false_r.
    replace (c + 32 =? 8490) with false by (symmetry; apply N.eqb_neq; lia).
    done.
  - destruct (c =? 8490) eqn:H3; [done|]. by rewrite H1, H2, H3.
  - destruct (c =? 8490) eqn:H3; [done|]. by rewrite H1, H2, H3.
  - destruct (c =? 8490) eqn:H3; [done|]. by rewrite H1, H2, H3.
Qed.

Lemma toLowerCase_idempotent (s : jsstring) : toLowerCase (toLowerCase s) = toLowerCase s.
Proof.
  unfold toLowerCase. rewrite <- list_fmap_compose.
  apply list_fmap_ext. intros i c _. apply lowerUnit_idempotent.
Qed.

(** X1. The path filter does not see letter case: a path and its lower-case
    form are both candidates or both excluded, and so are any two paths that
    are equal up to case. *)
Theorem isKeepHtmlFile_ignores_case (a : jsstring) :
  isKeepHtmlFile (toLowerCase a) = isKeepHtmlFile a /\
  (forall b, sameIgnoringCase a b -> isKeepHtmlFile a = isKeepHtmlFile b).
Proof.
  split.
  - unfold isKeepHtmlFile. cbv zeta. by rewrite toLowerCase_idempotent.
  - unfold sameIgnoringCase, isKeepHtmlFile. cbv zeta. by intros b ->.
Qed.

Lemma isKeepHtmlFile_ignores_case_sample :
  sameIgnoringCase (lit "TAKEOUT/Keep/Note.HTML") (lit "takeout/keep/note.html") /\
  isKeepHtmlFile (lit "TAKEOUT/Keep/Note.HTML")
  = isKeepHtmlFile (lit "takeout/keep/note.html").
Proof.
  split; [reflexivity|].
  exact (proj2 (isKeepHtmlFile_ignores_case (lit "TAKEOUT/Keep/Note.HTML"))
           (lit "takeout/keep/note.html") eq_refl).
Defined.

Lemma producedNote_not_candidate (P : Platform) (entry : ZipEntry) :
  ~ isCandidate entry -> producedNote P entry = None.
Proof.
  unfold isCandidate, producedNote.
  by destruct (isKeepHtmlFile (entryName entry)).
Qed.

Lemma omap_filter_Prop {A B : Type} (f : A -> option B) (Q : A -> Prop)
    `{!forall x, Decision (Q x)} (l : list A) :
  (forall x, ~ Q x -> f x = None) ->
  omap f (filter Q l) = omap f l.
Proof.
  intros Hnone. induction l as [|a l IH]; [done|].
  rewrite filter_cons. destruct (decide (Q a)) as [Hq|Hq]; simpl.
  - destruct (f a); [f_equal|]; exact IH.
  - rewrite (Hnone a Hq). exact IH.
Qed.

Lemma omap_length_le {A B : Type} (f : A -> option B) (l : list A) :
  (length (omap f l) <= length l)%nat.
Proof.
  induction l as [|a l IH]; [done|].
  change (omap f (a :: l))
    with (match f a with Some y => y :: omap f l | None => omap f l end).
  destruct (f a); simpl; lia.
Qed.

(** X2. The scan only looks at candidate entries: the notes of an archive
    are the notes of its candidate entries, there are at most as many notes
    as candidates, and an archive without any candidate entry gives the
    empty sequence. *)
Theorem scan_depends_on_candidates_only
    (P : Platform) (zipBuffer : Buffer) (entries : list ZipEntry) :
  AdmZip_getEntries P zipBuffer = Ok entries ->
  parseGoogleKeepTakeout P zipBuffer = Ok (scanEntries P (filter isCandidate entries)) /\
  (length (scanEntries P entries) <= length (filter isCandidate entries))%nat /\
  (Forall (fun entry => ~ isCandidate entry) entries ->
   parseGoogleKeepTakeout P zipBuffer = Ok []).
Proof.
  intros Hentries. unfold parseGoogleKeepTakeout. rewrite Hentries. simpl.
  assert (scanEntries P entries = scanEntries P (filter isCandidate entries)) as E.
  { rewrite !scanEntries_omap. symmetry.
    apply omap_filter_Prop. apply producedNote_not_candidate. }
  split; [by rewrite E|]. split.
  - rewrite E, scanEntries_omap. apply omap_length_le.
  - intros Hnone. rewrite E. f_equal.
    replace (filter isCandidate entries) with (@nil ZipEntry); [done|].
    symmetry. clear Hentries E.
    induction Hnone as [|e l He _ IH]; [done|].
    rewrite filter_cons. by destruct (decide (isCandidate e)).
Qed.

Lemma scan_depends_on_candidates_only_sample :
  AdmZip_getEntries Fixture.samplePlatform Fixture.sampleArchive
  = Ok Fixture.sampleEntries /\
  parseGoogleKeepTakeout Fixture.samplePlatform Fixture.sampleArchive
  = Ok (scanEntries Fixture.samplePlatform (filter isCandidate Fixture.sampleEntries)).
Proof.
  split; [reflexivity|].
  exact (proj1 (scan_depends_on_candidates_only Fixture.samplePlatform
                  Fixture.sampleArchive Fixture.sampleEntries eq_refl)).
Defined.

(** X3. The scan of a concatenation of entry lists is the concatenation of
    the scans: an entry contributes the same note wherever it stands in the
    archive and whatever entries surround it. *)
Theorem scanEntries_app (P : Platform) (before after : list ZipEntry) :
  scanEntries P (before ++ after) = scanEntries P before ++ scanEntries P after.
Proof. rewrite !scanEntries_omap. apply omap_app. Qed.

(** X4. The import throws exactly when the archive cannot be opened, and
    then with the archive reader's exception: no entry, however corrupt,
    makes the parser throw. *)
Theorem parseGoogleKeepTakeout_throws_iff (P : Platform) (zipBuffer : Buffer) (e : exn) :
  parseGoogleKeepTakeout P zipBuffer = Throw e <->
  AdmZip_getEntries P zipBuffer = Throw e.
Proof.
  unfold parseGoogleKeepTakeout. rewrite bind_Throw. split.
  - by intros [H | (entries & _ & H)].
  - by left.
Qed.

(** ** The Note Extractor *)

Lemma producedNote_source (P : Platform) (entry : ZipEntry) (note : ParsedNote) :
  producedNote P entry = Some note ->
  exists html, parseKeepHtmlNote P html = Ok (Some note).
Proof.
  unfold producedNote, parseEntry.
  destruct (isKeepHtmlFile (entryName entry)); [|done].
  destruct (getData entry) as [data|e]; simpl; [|done].
  destruct (parseKeepHtmlNote P (Buffer_toString_utf8 P data)) as [[n|]|e] eqn:Hp;
    try done.
  destruct (0 <? length (trim (content n)))%nat; [|done].
  intros [= <-]. by eexists.
Qed.

Lemma parseKeepHtmlNote_source (P : Platform) (html : jsstring) (note : ParsedNote) :
  parseKeepHtmlNote P html = Ok (Some note) ->
  (exists doc, extractNoteFromHtml doc = Some note) \/
  (exists data, extractNoteFromJsonLd P data = Ok (Some note)).
Proof.
  intros (doc & _ & [= Hd])%bind_Ok.
  apply parseLoaded_source in Hd as [Hd | Hd]; [left; by exists doc | by right].
Qed.

Lemma extractNoteFromHtml_Some (doc : Document) (note : ParsedNote) :
  extractNoteFromHtml doc = Some note ->
  exists text,
    trim (collapse_whitespace false text) <> [] /\
    note = {| title := trim (if bool_decide (titleText doc = [])
                             then titleClassText doc else titleText doc);
              content := trim (collapse_whitespace false text);
              createdAt := None |}.
Proof.
  unfold extractNoteFromHtml.
  set (text := if (0 <? contentDivLength doc)%nat then _ else _).
  destruct (trim (collapse_whitespace false text)) as [|x c'] eqn:Hc; simpl; [done|].
  intros [= <-]. exists text. rewrite Hc. split; [done|].
  by rewrite <- Hc, trim_idempotent.
Qed.

(** X5. Title and content of every note are trimmed: no Parsed Note, of
    either extraction path or of the pipeline, has leading or trailing
    whitespace in its title or in its content. *)
Theorem emitted_notes_are_trimmed (P : Platform) :
  (forall data note,
     extractNoteFromJsonLd P data = Ok (Some note) ->
     isTrimmed (title note) /\ isTrimmed (content note)) /\
  (forall doc note,
     extractNoteFromHtml doc = Some note ->
     isTrimmed (title note) /\ isTrimmed (content note)) /\
  (forall zipBuffer notes note,
     parseGoogleKeepTakeout P zipBuffer = Ok notes ->
     note ∈ notes ->
     isTrimmed (title note) /\ isTrimmed (content note)).
Proof.
  assert (forall data note,
            extractNoteFromJsonLd P data = Ok (Some note) ->
            isTrimmed (title note) /\ isTrimmed (content note)) as Hjson.
  { intros data note (t & c & ts & _ & _ & _ & _ & ->)%extractNoteFromJsonLd_Some.
    split; apply trim_isTrimmed. }
  assert (forall doc note,
            extractNoteFromHtml doc = Some note ->
            isTrimmed (title note) /\ isTrimmed (content note)) as Hhtml.
  { intros doc note (text & _ & ->)%extractNoteFromHtml_Some.
    split; apply trim_isTrimmed. }
  split; [exact Hjson | split; [exact Hhtml|]].
  intros zipBuffer notes note (entries & _ & [= <-])%bind_Ok Hin.
  rewrite scanEntries_omap in Hin.
  apply list_elem_of_omap in Hin as (entry & _ & Hn).
  apply producedNote_source in Hn as [html Hn].
  apply parseKeepHtmlNote_source in Hn as [[doc Hn] | [data Hn]]; eauto.
Qed.

Lemma emitted_notes_are_trimmed_sample :
  extractNoteFromHtml Fixture.plain_page = Some Fixture.plainNote /\
  isTrimmed (title Fixture.plainNote) /\ isTrimmed (content Fixture.plainNote).
Proof.
  split; [reflexivity|].
  exact (proj1 (proj2 (emitted_notes_are_trimmed Fixture.samplePlatform))
           Fixture.plain_page Fixture.plainNote eq_refl).
Defined.

Lemma collapse_whitespace_spaces (inRun : bool) (s : jsstring) (c : unit16) :
  c ∈ collapse_whitespace inRun s -> isWhiteSpace c = true -> c = SPACE.
Proof.
  revert inRun. induction s as [|d s IH]; intros inRun; simpl.
  - by intros ?%elem_of_nil.
  - destruct (isWhiteSpace d) eqn:Hd.
    + destruct inRun; [apply IH|].
      intros [->|Hin]%elem_of_cons; [done | by eapply IH].
    + intros [->|Hin]%elem_of_cons; [congruence | by eapply IH].
Qed.

Lemma collapse_whitespace_no_double (inRun : bool) (s : jsstring) :
  includes (collapse_whitespace inRun s) [SPACE; SPACE] = false /\
  (inRun = true -> startsWith (collapse_whitespace inRun s) [SPACE] = false).
Proof.
  revert inRun. induction s as [|d s IH]; intros inRun; simpl.
  - done.
  - destruct (isWhiteSpace d) eqn:Hd.
    + destruct inRun; [apply IH|].
      destruct (IH true) as [H1 H2]. split; [|done].
      change (includes (SPACE :: collapse_whitespace true s) [SPACE; SPACE])
        with (startsWith (SPACE :: collapse_whitespace true s) [SPACE; SPACE]
              || includes (collapse_whitespace true s) [SPACE; SPACE]).
      rewrite H1, orb_false_r.
      change (startsWith (SPACE :: collapse_whitespace true s) [SPACE; SPACE])
        with ((SPACE =? SPACE) && startsWith (collapse_whitespace true s) [SPACE]).
      by rewrite (H2 eq_refl).
    + destruct (IH false) as [H1 _].
      assert ((d =? SPACE) = false) as Hne.
      { apply N.eqb_neq. intros ->. done. }
      split.
      * change (includes (d :: collapse_whitespace false s) [SPACE; SPACE])
          with (startsWith (d :: collapse_whitespace false s) [SPACE; SPACE]
                || includes (collapse_whitespace false s) [SPACE; SPACE]).
        rewrite H1, orb_false_r.
        change (startsWith (d :: collapse_whitespace false s) [SPACE; SPACE])
          with ((d =? SPACE) && startsWith (collapse_whitespace false s) [SPACE]).
        by rewrite Hne.
      * intros _.
        change (startsWith (d :: collapse_whitespace false s) [SPACE])
          with ((d =? SPACE) && startsWith (collapse_whitespace false s) []).
        by rewrite Hne.
Qed.

Lemma singleSpaced_trim_collapse (s : jsstring) :
  singleSpaced (trim (collapse_whitespace false s)).
Proof.
  destruct (trim_infix (collapse_whitespace false s)) as (w1 & w2 & E).
  split.
  - intros c Hin. apply (collapse_whitespace_spaces false s).
    rewrite E, !elem_of_app. auto.
  - intros l1 l2 Hl.
    destruct (collapse_whitespace_no_double false s) as [H _].
    assert (includes (collapse_whitespace false s) [SPACE; SPACE] = true) as H';
      [|congruence].
    apply includes_spec. exists (w1 ++ l1), (l2 ++ w2).
    rewrite E at 1. rewrite Hl. by rewrite <- !app_assoc.
Qed.

(** X6. A note of the markup fallback is a single line with single spaces:
    every whitespace code unit of its content (newline, tab, no-break space)
    has become a space, no two spaces are adjacent, and its timestamp is
    unset. *)
Theorem fallback_note_is_single_spaced (doc : Document) (note : ParsedNote) :
  extractNoteFromHtml doc = Some note ->
  singleSpaced (content note) /\ createdAt note = None.
Proof.
  intros (text & _ & ->)%extractNoteFromHtml_Some. simpl.
  split; [apply singleSpaced_trim_collapse | done].
Qed.

Lemma fallback_note_is_single_spaced_sample :
  extractNoteFromHtml Fixture.plain_page = Some Fixture.plainNote /\
  singleSpaced (content Fixture.plainNote) /\ createdAt Fixture.plainNote = None.
Proof.
  split; [reflexivity|].
  exact (fallback_note_is_single_spaced Fixture.plain_page Fixture.plainNote eq_refl).
Defined.

(** X7. The two extraction paths are never merged: when the fallback is
    taken the answer is the answer of the markup scraping alone, and when the
    structured path is taken the answer is what the structured extraction
    returned for the working object of the parsed payload. *)
Theorem paths_are_exclusive (P : Platform) (doc : Document) :
  ((parseLoaded P doc).1 = MarkupFallback ->
   (parseLoaded P doc).2 = extractNoteFromHtml doc) /\
  ((parseLoaded P doc).1 = StructuredData ->
   exists script jsonData,
     jsonLdScript doc = Some script /\
     JSON_parse P script = Ok jsonData /\
     truthy (workingObject jsonData) = true /\
     extractNoteFromJsonLd P (workingObject jsonData) = Ok (parseLoaded P doc).2).
Proof.
  unfold parseLoaded, tryJsonLd.
  destruct (jsonLdScript doc) as [script|]; [|done].
  destruct (bool_decide (script = [])); [done|].
  destruct (JSON_parse P script) as [jsonData|e] eqn:Hp; simpl; [|done].
  destruct (truthy (workingObject jsonData)) eqn:Hw; simpl; [|done].
  destruct (extractNoteFromJsonLd P (workingObject jsonData)) as [r|e] eqn:Hx;
    simpl; [|done].
  split; [done|]. intros _. by exists script, jsonData.
Qed.

Lemma paths_are_exclusive_sample :
  (parseLoaded Fixture.emptyArrayPlatform Fixture.emptyArrayPage).1 = MarkupFallback /\
  (parseLoaded Fixture.emptyArrayPlatform Fixture.emptyArrayPage).2
  = extractNoteFromHtml Fixture.emptyArrayPage.
Proof.
  split; [reflexivity|].
  exact (proj1 (paths_are_exclusive Fixture.emptyArrayPlatform Fixture.emptyArrayPage)
           eq_refl).
Defined.

Lemma structuredContent_text (props : list (jsstring * value)) :
  notChecklist props ->
  structuredContent (VObj props)
  = Ok (js_or (lookupProp (lit "text") props)
              (js_or (lookupProp (lit "description") props) (VStr []))).
Proof.
  unfold notChecklist, structuredContent. simpl. intros ->.
  rewrite andb_false_r. apply getPropOr_object.
Qed.

(** X8. The timestamp of a structured note: when [dateCreated] is present
    (truthy) the timestamp is what [new Date(dateCreated)] gives, whatever
    [dateModified] holds; when [dateCreated] is absent and [dateModified] is
    present it is what [new Date(dateModified)] gives; when both are absent
    it is unset. *)
Theorem timestamp_precedence (P : Platform) (data : value) (note : ParsedNote) :
  extractNoteFromJsonLd P data = Ok (Some note) ->
  (forall dateCreated,
     getProp data (lit "dateCreated") = Ok dateCreated ->
     truthy dateCreated = true ->
     newDate P dateCreated = Ok (createdAt note)) /\
  (forall dateCreated dateModified,
     getProp data (lit "dateCreated") = Ok dateCreated ->
     truthy dateCreated = false ->
     getProp data (lit "dateModified") = Ok dateModified ->
     truthy dateModified = true ->
     newDate P dateModified = Ok (createdAt note)) /\
  (forall dateCreated dateModified,
     getProp data (lit "dateCreated") = Ok dateCreated ->
     truthy dateCreated = false ->
     getProp data (lit "dateModified") = Ok dateModified ->
     truthy dateModified = false ->
     createdAt note = None).
Proof.
  intros (t & c & ts & _ & _ & _ & Hts & ->)%extractNoteFromJsonLd_Some. simpl.
  split; [|split].
  - intros dc Hc Htc.
    by rewrite <- (recoverCreatedAt_dateCreated P data dc Hc Htc).
  - intros dc dm Hc Htc Hm Htm.
    by rewrite <- (recoverCreatedAt_dateModified P data dc dm Hc Htc Hm Htm).
  - intros dc dm Hc Htc Hm Htm.
    rewrite (recoverCreatedAt_neither P data dc dm Hc Htc Hm Htm) in Hts.
    by injection Hts.
Qed.

(** X9. Field precedence of a structured note that is not a checklist: the
    content is the trimmed [text] when [text] is a non-empty string, and the
    trimmed [description] when [text] is missing or falsy; the title is the
    trimmed [name] when [name] is a non-empty string, and the trimmed
    [headline] when [name] is missing or falsy. *)
Theorem text_note_fields
    (P : Platform) (props : list (jsstring * value)) (note : ParsedNote) :
  extractNoteFromJsonLd P (VObj props) = Ok (Some note) ->
  notChecklist props ->
  (forall t, lookupProp (lit "text") props = VStr t -> t <> [] ->
     content note = trim t) /\
  (forall d, truthy (lookupProp (lit "text") props) = false ->
     lookupProp (lit "description") props = VStr d ->
     content note = trim d) /\
  (forall n, lookupProp (lit "name") props = VStr n -> n <> [] ->
     title note = trim n) /\
  (forall h, truthy (lookupProp (lit "name") props) = false ->
     lookupProp (lit "headline") props = VStr h ->
     title note = trim h).
Proof.
  intros (t & c & ts & Ht & Hc & _ & _ & ->)%extractNoteFromJsonLd_Some Hnc. simpl.
  rewrite (structuredContent_text props Hnc) in Hc.
  rewrite getPropOr_object in Ht.
  injection Hc as Hc. injection Ht as Ht.
  unfold js_or in Hc, Ht.
  repeat split.
  - intros t' Ht' Hne. rewrite Ht' in Hc. simpl in Hc.
    destruct (bool_decide_reflect (t' = [])); [done|]. simpl in Hc.
    by injection Hc as <-.
  - intros d Hf Hd. rewrite Hf, Hd in Hc. simpl in Hc.
    destruct d as [|x d']; simpl in Hc; by injection Hc as <-.
  - intros n Hn Hne. rewrite Hn in Ht. simpl in Ht.
    destruct (bool_decide_reflect (n = [])); [done|]. simpl in Ht.
    by injection Ht as <-.
  - intros h Hf Hh. rewrite Hf, Hh in Ht. simpl in Ht.
    destruct h as [|x h']; simpl in Ht; by injection Ht as <-.
Qed.

Lemma text_note_fields_sample :
  extractNoteFromJsonLd Fixture.samplePlatform Fixture.note1_value
  = Ok (Some Fixture.note1) /\
  notChecklist [(lit "name", VStr (lit "T")); (lit "text", VStr (lit "Hello"))] /\
  content Fixture.note1 = trim (lit "Hello").
Proof.
  split; [reflexivity|]. split; [reflexivity|].
  exact (proj1 (text_note_fields Fixture.samplePlatform
                  [(lit "name", VStr (lit "T")); (lit "text", VStr (lit "Hello"))]
                  Fixture.note1 eq_refl eq_refl)
           (lit "Hello") eq_refl ltac:(discriminate)).
Defined.

(** X10. A whitespace-only [text] hides the [description]: when the working
    object is not a checklist and its [text] is a non-empty string of
    whitespace, no note is extracted, whatever [description] holds. *)
Theorem blank_text_hides_description
    (P : Platform) (props : list (jsstring * value)) (t : jsstring) :
  notChecklist props ->
  lookupProp (lit "text") props = VStr t ->
  t <> [] ->
  forallb isWhiteSpace t = true ->
  extractNoteFromJsonLd P (VObj props) = Ok None.
Proof.
  intros Hnc Ht Hne Hws. apply extractNoteFromJsonLd_None.
  exists (titleValue props), (VStr t). split; [apply getPropOr_object|]. split.
  - rewrite (structuredContent_text props Hnc). unfold js_or. rewrite Ht. simpl.
    by destruct (bool_decide_reflect (t = [])).
  - right. exists t. split; [done | by apply trim_whitespace].
Qed.

Lemma timestamp_precedence_sample :
  extractNoteFromJsonLd Cases.platform Cases.datedNote
  = Ok (Some {| title := []; content := lit "Hello";
                createdAt := Some 1577836800000%Z |}) /\
  getProp Cases.datedNote (lit "dateCreated") = Ok (VStr Fixture.isoDate) /\
  truthy (VStr Fixture.isoDate) = true /\
  newDate Cases.platform (VStr Fixture.isoDate) = Ok (Some 1577836800000%Z).
Proof.
  repeat (split; [reflexivity|]).
  exact (proj1 (timestamp_precedence Cases.platform Cases.datedNote
                  {| title := []; content := lit "Hello";
                     createdAt := Some 1577836800000%Z |} eq_refl)
           (VStr Fixture.isoDate) eq_refl eq_refl).
Defined.

Lemma blank_text_hides_description_sample :
  notChecklist Cases.blankTextProps /\
  lookupProp (lit "text") Cases.blankTextProps = VStr [SPACE] /\
  [SPACE] <> [] /\
  forallb isWhiteSpace [SPACE] = true /\
  extractNoteFromJsonLd Cases.platform (VObj Cases.blankTextProps) = Ok None.
Proof.
  assert ([SPACE] <> []) as Hne by discriminate.
  repeat (split; [first [reflexivity | exact Hne]|]).
  exact (blank_text_hides_description Cases.platform Cases.blankTextProps [SPACE]
           eq_refl eq_refl Hne eq_refl).
Defined.

Lemma parseLoaded_Throw (P : Platform) (doc : Document) (script : jsstring)
    (jsonData : value) (e : exn) :
  jsonLdScript doc = Some script ->
  script <> [] ->
  JSON_parse P script = Ok jsonData ->
  truthy (workingObject jsonData) = true ->
  extractNoteFromJsonLd P (workingObject jsonData) = Throw e ->
  parseLoaded P doc = (MarkupFallback, extractNoteFromHtml doc).
Proof.
  intros Hs Hne Hp Hw Hx. unfold parseLoaded, tryJsonLd. rewrite Hs.
  destruct (bool_decide_reflect (script = [])); [done|].
  rewrite Hp. simpl. by rewrite Hw, Hx.
Qed.

Lemma method_trim_not_string (v : value) :
  isStringValue v = false -> method_trim v = Throw TypeError.
Proof. by destruct v. Qed.

Lemma extractNoteFromJsonLd_not_string
    (P : Platform) (props : list (jsstring * value)) (cv : value) :
  structuredContent (VObj props) = Ok cv ->
  truthy cv = true ->
  isStringValue cv = false \/
  ((exists c, cv = VStr c /\ trim c <> []) /\ isStringValue (titleValue props) = false) ->
  exists e, extractNoteFromJsonLd P (VObj props) = Throw e.
Proof.
  intros Hc Ht Hcase. unfold extractNoteFromJsonLd.
  rewrite getPropOr_object, Hc. simpl. rewrite Ht. simpl.
  destruct Hcase as [Hns | [(c & -> & Hne) Hns]].
  - rewrite (method_trim_not_string cv Hns). by eexists.
  - simpl. destruct (trim c) as [|x c'] eqn:Etrim; [done|]. simpl.
    destruct (recoverCreatedAt P (VObj props)) as [ts|e]; simpl; [|by eexists].
    fold (titleValue props). rewrite (method_trim_not_string _ Hns). by eexists.
Qed.

(** X11. A field of the wrong type sends the document to the fallback: when
    the content of the working object is truthy and not a string (a number,
    [true], an array, an object), or the content is a non-blank string and
    the title is not a string, the structured extraction throws and the
    answer is the answer of the markup scraping. *)
Theorem non_string_field_falls_back
    (P : Platform) (doc : Document) (script : jsstring) (jsonData : value)
    (props : list (jsstring * value)) (cv : value) :
  jsonLdScript doc = Some script ->
  script <> [] ->
  JSON_parse P script = Ok jsonData ->
  workingObject jsonData = VObj props ->
  structuredContent (VObj props) = Ok cv ->
  truthy cv = true ->
  isStringValue cv = false \/
  ((exists c, cv = VStr c /\ trim c <> []) /\ isStringValue (titleValue props) = false) ->
  parseLoaded P doc = (MarkupFallback, extractNoteFromHtml doc).
Proof.
  intros Hs Hne Hp Hw Hc Ht Hcase.
  destruct (extractNoteFromJsonLd_not_string P props cv Hc Ht Hcase) as [e He].
  apply (parseLoaded_Throw P doc script jsonData e Hs Hne Hp).
  - by rewrite Hw.
  - by rewrite Hw.
Qed.

Lemma non_string_field_falls_back_sample :
  jsonLdScript Cases.numericName_page = Some (lit Cases.numericName_payload) /\
  JSON_parse Cases.platform (lit Cases.numericName_payload)
  = Ok (VObj Cases.numericNameProps) /\
  structuredContent (VObj Cases.numericNameProps) = Ok (VStr (lit "Hello")) /\
  titleValue Cases.numericNameProps = VNum (safeInteger 2024) /\
  parseLoaded Cases.platform Cases.numericName_page
  = (MarkupFallback,
     Some {| title := lit "Year"; content := lit "Hello"; createdAt := None |}).
Proof.
  repeat (split; [reflexivity|]).
  refine (non_string_field_falls_back Cases.platform Cases.numericName_page
            (lit Cases.numericName_payload) (VObj Cases.numericNameProps)
            Cases.numericNameProps (VStr (lit "Hello"))
            eq_refl _ eq_refl eq_refl eq_refl eq_refl _).
  - discriminate.
  - right. split; [|reflexivity]. exists (lit "Hello"). split; [reflexivity|discriminate].
Defined.

Lemma renderChecklist_null (items : list value) (acc : list jsstring) :
  VNull ∈ items -> exists e, renderChecklist items acc = Throw e.
Proof.
  revert acc. induction items as [|item items IH]; intros acc Hin.
  - by apply elem_of_nil in Hin.
  - simpl. destruct (renderChecklistItem item) as [line|e] eqn:Hitem; simpl;
      [|by eexists].
    apply elem_of_cons in Hin as [<-|Hin]; [done|]. by apply IH.
Qed.

(** X12. A [null] among the checklist items sends the document to the
    fallback: rendering the checklist throws, no partial checklist is
    emitted, and the answer is the answer of the markup scraping. *)
Theorem null_checklist_item_falls_back
    (P : Platform) (doc : Document) (script : jsstring) (jsonData : value)
    (props : list (jsstring * value)) (items : list value) :
  jsonLdScript doc = Some script ->
  script <> [] ->
  JSON_parse P script = Ok jsonData ->
  workingObject jsonData = VObj props ->
  lookupProp (lit "itemListElement") props = VArr items ->
  VNull ∈ items ->
  parseLoaded P doc = (MarkupFallback, extractNoteFromHtml doc).
Proof.
  intros Hs Hne Hp Hw Hitems Hnull.
  destruct (renderChecklist_null items [] Hnull) as [e He].
  apply (parseLoaded_Throw P doc script jsonData e Hs Hne Hp).
  - by rewrite Hw.
  - rewrite Hw. unfold extractNoteFromJsonLd.
    rewrite getPropOr_object. simpl.
    rewrite (structuredContent_checklist (VObj props) items).
    + by rewrite He.
    + simpl. by rewrite Hitems.
Qed.

Lemma null_checklist_item_falls_back_sample :
  jsonLdScript Cases.nullItem_page = Some (lit Cases.nullItem_payload) /\
  JSON_parse Cases.platform (lit Cases.nullItem_payload) = Ok (VObj Cases.nullItemProps) /\
  lookupProp (lit "itemListElement") Cases.nullItemProps
  = VArr [Fixture.milkItem; VNull] /\
  parseLoaded Cases.platform Cases.nullItem_page
  = (MarkupFallback,
     Some {| title := lit "List"; content := lit "milk"; createdAt := None |}).
Proof.
  repeat (split; [reflexivity|]).
  refine (null_checklist_item_falls_back Cases.platform Cases.nullItem_page
            (lit Cases.nullItem_payload) (VObj Cases.nullItemProps)
            Cases.nullItemProps [Fixture.milkItem; VNull]
            eq_refl _ eq_refl eq_refl eq_refl _).
  - discriminate.
  - constructor 2. constructor 1.
Defined.

(** ** The content normalization helper, continued *)

(** X13. Whatever string the content normalization helper is given, its
    result has the output form: no carriage return, no run of three or more
    newlines, no leading or trailing whitespace. *)
Theorem formatNoteContent_reaches_outputForm (s : jsstring) :
  noCarriageReturn (formatNoteContent s) /\
  noTripleNewline (formatNoteContent s) /\
  isTrimmed (formatNoteContent s).
Proof.
  unfold formatNoteContent.
  set (lines := replace_cr (replace_crlf s)).
  split; [|split].
  - apply noCarriageReturn_trim, collapse_newlines_noCarriageReturn.
    apply replace_cr_noCarriageReturn.
  - apply noTripleNewline_trim, noTripleNewline_includes.
    apply collapse_newlines_includes.
  - apply trim_isTrimmed.
Qed.

(** X14. The content normalization helper is idempotent on every string:
    normalizing a second time changes nothing. *)
Theorem formatNoteContent_twice (s : jsstring) :
  formatNoteContent (formatNoteContent s) = formatNoteContent s.
Proof. apply formatNoteContent_id, formatNoteContent_outputForm. Qed.

Section LineEndings.
Implicit Types (s : jsstring).

Lemma replace_crlf_withCRLF s :
  noCarriageReturn s -> replace_crlf (withLineEnding [CR; LF] s) = s.
Proof.
  unfold noCarriageReturn, withLineEnding.
  induction s as [|c s IH]; [done|].
  intros [Hc Hs]%not_elem_of_cons. specialize (IH Hs).
  rewrite bind_cons.
  destruct (N.eqb_spec c LF) as [->|Hlf].
  - change (replace_crlf ([CR; LF] ++ s ≫= (fun c => if c =? LF then [CR; LF] else [c])))
      with (LF :: replace_crlf (s ≫= (fun c => if c =? LF then [CR; LF] else [c]))).
    by rewrite IH.
  - simpl app.
    destruct (s ≫= (fun c => if c =? LF then [CR; LF] else [c])) as [|d t] eqn:E.
    + simpl in IH. by rewrite <- IH.
    + change (replace_crlf (c :: d :: t))
        with (if (c =? CR) && (d =? LF) then LF :: replace_crlf t
              else c :: replace_crlf (d :: t)).
      destruct (N.eqb_spec c CR) as [->|_]; [done|]. simpl andb. by rewrite IH.
Qed.

Lemma replace_crlf_no_newline s : LF ∉ s -> replace_crlf s = s.
Proof.
  induction s as [|c s IH]; [done|].
  intros [Hc Hs]%not_elem_of_cons. specialize (IH Hs).
  destruct s as [|d s]; [done|].
  change (replace_crlf (c :: d :: s))
    with (if (c =? CR) && (d =? LF) then LF :: replace_crlf s
          else c :: replace_crlf (d :: s)).
  apply not_elem_of_cons in Hs as [Hd _].
  destruct (N.eqb_spec d LF) as [->|_]; [done|].
  rewrite andb_false_r. by rewrite IH.
Qed.

Lemma withCR_no_newline s : LF ∉ withLineEnding [CR] s.
Proof.
  unfold withLineEnding. induction s as [|c s IH]; [apply not_elem_of_nil|].
  rewrite bind_cons. destruct (N.eqb_spec c LF) as [->|Hlf]; simpl.
  - apply not_elem_of_cons. split; [done | exact IH].
  - apply not_elem_of_cons. split; [congruence | exact IH].
Qed.

Lemma replace_cr_withCR s : noCarriageReturn s -> replace_cr (withLineEnding [CR] s) = s.
Proof.
  unfold noCarriageReturn, withLineEnding, replace_cr.
  induction s as [|c s IH]; [done|].
  intros [Hc Hs]%not_elem_of_cons. specialize (IH Hs).
  rewrite bind_cons. destruct (N.eqb_spec c LF) as [->|Hlf]; simpl.
  - f_equal. exact IH.
  - f_equal; [by destruct (N.eqb_spec c CR) | exact IH].
Qed.

End LineEndings.

(** X15. The content normalization helper does not see the line-ending
    style: a text written with CR LF line endings, or with CR line endings,
    normalizes to the same string as the text written with LF. *)
Theorem formatNoteContent_any_line_ending (s : jsstring) :
  noCarriageReturn s ->
  formatNoteContent (withLineEnding [CR; LF] s) = formatNoteContent s /\
  formatNoteContent (withLineEnding [CR] s) = formatNoteContent s.
Proof.
  intros Hcr. unfold formatNoteContent.
  rewrite (replace_crlf_id s Hcr), (replace_cr_id s Hcr). split.
  - by rewrite (replace_crlf_withCRLF s Hcr), (replace_cr_id s Hcr).
  - rewrite (replace_crlf_no_newline _ (withCR_no_newline s)).
    by rewrite (replace_cr_withCR s Hcr).
Qed.

Lemma formatNoteContent_any_line_ending_sample :
  noCarriageReturn Fixture.twoParagraphs /\
  formatNoteContent (withLineEnding [CR; LF] Fixture.twoParagraphs)
  = formatNoteContent Fixture.twoParagraphs /\
  formatNoteContent (withLineEnding [CR] Fixture.twoParagraphs)
  = formatNoteContent Fixture.twoParagraphs.
Proof.
  assert (noCarriageReturn Fixture.twoParagraphs) as H.
  { apply noCarriageReturn_forallb. reflexivity. }
  exact (conj H (formatNoteContent_any_line_ending Fixture.twoParagraphs H)).
Defined.

Section FormatLength.
Implicit Types (s : jsstring).

Lemma replace_crlf_length s :
  (length (replace_crlf s) <= length s)%nat /\
  (forall c, length (replace_crlf (c :: s)) <= S (length s))%nat.
Proof.
  induction s as [|d s [IH1 IH2]].
  - split; [done|]. intros c. simpl. lia.
  - split; [apply IH2|]. intros c.
    change (replace_crlf (c :: d :: s))
      with (if (c =? CR) && (d =? LF) then LF :: replace_crlf s
            else c :: replace_crlf (d :: s)).
    destruct ((c =? CR) && (d =? LF)); simpl length.
    + lia.
    + specialize (IH2 d). simpl length in IH2. lia.
Qed.

Lemma collapse_newlines_length run s :
  (length (collapse_newlines run s) <= Nat.min run 2 + length s)%nat.
Proof.
  revert run. induction s as [|c s IH]; intros run; simpl.
  - unfold flush_newlines. rewrite length_replicate. lia.
  - destruct (c =? LF).
    + specialize (IH (S run)). lia.
    + rewrite length_app. unfold flush_newlines. rewrite length_replicate.
      simpl. specialize (IH 0%nat). lia.
Qed.

Lemma trim_length s : (length (trim s) <= length s)%nat.
Proof.
  destruct (trim_infix s) as (w1 & w2 & E).
  rewrite E at 2. rewrite !length_app. lia.
Qed.

Lemma forallb_replace_crlf s :
  forallb isWhiteSpace (replace_crlf s) = forallb isWhiteSpace s.
Proof.
  assert (forallb isWhiteSpace (replace_crlf s) = forallb isWhiteSpace s /\
          forall c, forallb isWhiteSpace (replace_crlf (c :: s))
                    = isWhiteSpace c && forallb isWhiteSpace s) as [H _]; [|done].
  induction s as [|d s [IH1 IH2]].
  - split; [done|]. intros c. simpl. by rewrite andb_true_r.
  - split; [apply IH2|]. intros c.
    change (replace_crlf (c :: d :: s))
      with (if (c =? CR) && (d =? LF) then LF :: replace_crlf s
            else c :: replace_crlf (d :: s)).
    assert (forall x l, forallb isWhiteSpace (x :: l)
                        = isWhiteSpace x && forallb isWhiteSpace l) as Hcons by done.
    destruct (N.eqb_spec c CR) as [->|_]; destruct (N.eqb_spec d LF) as [->|_];
      cbn [andb]; rewrite !Hcons, ?IH1, ?IH2; done.
Qed.

Lemma forallb_replace_cr s :
  forallb isWhiteSpace (replace_cr s) = forallb isWhiteSpace s.
Proof.
  unfold replace_cr. induction s as [|c s IH]; [done|].
  rewrite fmap_cons. simpl. rewrite IH.
  by destruct (N.eqb_spec c CR) as [->|_].
Qed.

Lemma forallb_collapse_newlines run s :
  forallb isWhiteSpace (collapse_newlines run s) = forallb isWhiteSpace s.
Proof.
  assert (forall n, forallb isWhiteSpace (flush_newlines n) = true) as Hflush.
  { intros n. unfold flush_newlines.
    induction (Nat.min n 2) as [|k IHk]; [done|]. simpl. exact IHk. }
  revert run. induction s as [|c s IH]; intros run; simpl.
  - apply Hflush.
  - destruct (N.eqb_spec c LF) as [->|_].
    + by rewrite IH.
    + rewrite forallb_app, Hflush. simpl. by rewrite IH.
Qed.

End FormatLength.

(** X16. The content normalization helper never makes a text longer. *)
Theorem formatNoteContent_never_longer (s : jsstring) :
  (length (formatNoteContent s) <= length s)%nat.
Proof.
  unfold formatNoteContent.
  pose proof (trim_length (collapse_newlines 0 (replace_cr (replace_crlf s)))) as H1.
  pose proof (collapse_newlines_length 0 (replace_cr (replace_crlf s))) as H2.
  pose proof (proj1 (replace_crlf_length s)) as H3.
  unfold replace_cr in H2 at 2. rewrite length_fmap in H2. simpl in H2.
  etrans; [exact H1|]. etrans; [exact H2 | exact H3].
Qed.

(** X17. The content normalization helper returns the empty string exactly
    for the texts that consist of whitespace only (the empty text among
    them). *)
Theorem formatNoteContent_empty_iff (s : jsstring) :
  formatNoteContent s = [] <-> forallb isWhiteSpace s = true.
Proof.
  unfold formatNoteContent.
  rewrite <- (forallb_replace_crlf s), <- (forallb_replace_cr (replace_crlf s)).
  rewrite <- (forallb_collapse_newlines 0 (replace_cr (replace_crlf s))).
  split; [apply trim_nil_whitespace | apply trim_whitespace].
Qed.

(** ** The validators *)

Section ValidatorFacts.
Import Validators.

Lemma finish_Success {A : Type} (data data' : A) (issues : list issue) :
  finish data issues = Success data' <-> issues = [] /\ data = data'.
Proof.
  destruct issues; simpl; split; try done.
  - by intros [= ->].
  - by intros [_ ->].
  - by intros [? _].
Qed.

Lemma minLength_nil (n : N) (message : string) (s : jsstring) :
  minLength n message s = [] <-> n <= jslength s.
Proof.
  unfold minLength. destruct (N.ltb_spec (jslength s) n); split; try done; lia.
Qed.

Lemma maxLength_nil (n : N) (message : string) (s : jsstring) :
  maxLength n message s = [] <-> jslength s <= n.
Proof.
  unfold maxLength. destruct (N.ltb_spec n (jslength s)); split; try done; lia.
Qed.

Lemma jslength_pos (s : jsstring) : 1 <= jslength s <-> s <> [].
Proof. unfold jslength. destruct s; simpl; split; try done; lia. Qed.

End ValidatorFacts.

(** X18. The user identifier is accepted exactly when it is a string of 1 to
    255 code units, and then it is returned unchanged; anything that is not a
    string, the empty string and a longer string are refused. *)
Theorem validateUserId_accepts_iff (userId : value) (data : jsstring) :
  Validators.validateUserId userId = Validators.Success data <->
  userId = VStr data /\ 1 <= jslength data <= 255.
Proof.
  unfold Validators.validateUserId.
  destruct userId as [| | | |s| |]; try (split; [done | by intros [? _]]).
  rewrite finish_Success. unfold Validators.userIdSchema.
  split.
  - intros [[Hmin Hmax]%app_eq_nil ->].
    apply minLength_nil in Hmin. apply maxLength_nil in Hmax. done.
  - intros [[= ->] [Hmin Hmax]]. split; [|done].
    apply app_nil. split; [by apply minLength_nil | by apply maxLength_nil].
Qed.

Lemma fileSchema_nil (file : Validators.UploadedFileInfo) :
  Validators.fileSchema file = [] <-> acceptableFile file.
Proof.
  unfold Validators.fileSchema, acceptableFile, Validators.MAX_FILE_SIZE.
  rewrite !app_nil, minLength_nil, jslength_pos.
  rewrite <- (endsWith_toLowerCase (Validators.originalFilename file) (lit ".zip")).
  change (toLowerCase (lit ".zip")) with (lit ".zip").
  destruct (endsWith (toLowerCase (Validators.originalFilename file)) (lit ".zip"));
    destruct (Z.ltb_spec (Validators.size file) 1);
    destruct (Z.ltb_spec (200 * 1024 * 1024) (Validators.size file));
    split; intros (? & ? & ?); try done; try lia; repeat split; try done; try lia;
    destruct_and?; try done; lia.
Qed.

(** X19. An uploaded file is accepted exactly when its path is not empty,
    its name ends in [.zip] whatever the letter case, and its size is between
    1 byte and 200 MiB, both included; an accepted file is returned
    unchanged. *)
Theorem validateUploadedFile_accepts_iff (file data : Validators.UploadedFileInfo) :
  Validators.validateUploadedFile file = Validators.Success data <->
  acceptableFile file /\ data = file.
Proof.
  unfold Validators.validateUploadedFile.
  rewrite finish_Success, fileSchema_nil. by split; intros [? ->].
Qed.

Lemma byteIs_lookup (buffer : list Byte.byte) (i : nat) (n : N) (b : Byte.byte) :
  Byte.of_N n = Some b ->
  Validators.byteIs buffer i n = true <-> buffer !! i = Some b.
Proof.
  intros Hn. unfold Validators.byteIs, Validators.byteAt.
  destruct (buffer !! i) as [b'|]; simpl; [|done].
  rewrite N.eqb_eq. split.
  - intros E. rewrite <- E, Byte.of_to_N in Hn. by injection Hn as ->.
  - intros [= ->]. by apply Byte.to_of_N.
Qed.

(** X21. A buffer passes the magic-number test exactly when it starts with
    the four bytes [PK\x03\x04]; a shorter buffer never passes. *)
Theorem isValidZipBuffer_iff (buffer : list Byte.byte) :
  Validators.isValidZipBuffer buffer = true <-> exists rest, buffer = zipMagic ++ rest.
Proof.
  unfold Validators.isValidZipBuffer, zipMagic.
  destruct buffer as [|b0 [|b1 [|b2 [|b3 rest]]]];
    try (split; [done | by intros [? ?]]).
  replace (jslength (b0 :: b1 :: b2 :: b3 :: rest) <? 4) with false.
  - rewrite !andb_true_iff.
    rewrite (byteIs_lookup _ 0 80 Byte.x50 eq_refl).
    rewrite (byteIs_lookup _ 1 75 Byte.x4b eq_refl).
    rewrite (byteIs_lookup _ 2 3 Byte.x03 eq_refl).
    rewrite (byteIs_lookup _ 3 4 Byte.x04 eq_refl).
    simpl. split.
    + intros [[[[= ->] [= ->]] [= ->]] [= ->]]. by exists rest.
    + intros [rest' [= -> -> -> -> _]]. done.
  - symmetry. apply N.ltb_ge. unfold jslength. simpl. lia.
Qed.

(** ** The service *)

Lemma scan_note_content (P : Platform) (entries : list ZipEntry) (note : ParsedNote) :
  note ∈ scanEntries P entries ->
  content note <> [] /\ isTrimmed (content note).
Proof.
  rewrite scanEntries_omap.
  intros (entry & _ & Hn)%list_elem_of_omap. split.
  - apply producedNote_content in Hn. intros E. by rewrite E in Hn.
  - apply producedNote_source in Hn as [html Hn].
    apply parseKeepHtmlNote_source in Hn as [[doc Hn] | [data Hn]].
    + apply extractNoteFromHtml_Some in Hn as (text & _ & ->). apply trim_isTrimmed.
    + apply extractNoteFromJsonLd_Some in Hn as (t & c & ts & _ & _ & _ & _ & ->).
      apply trim_isTrimmed.
Qed.

Lemma parseAndSaveNotes_Ok (P : Platform) (clock : nat -> Z) (zipBuffer : Buffer)
    (userId : jsstring) (records : list GoogleKeepService.NoteCreateInput) :
  GoogleKeepService.parseAndSaveNotes P clock zipBuffer userId = Ok records <->
  exists notes,
    parseGoogleKeepTakeout P zipBuffer = Ok notes /\
    1 <= jslength notes <= 5000 /\
    records = imap (fun i note =>
                      GoogleKeepService.toCreateInput userId (clock i) note) notes.
Proof.
  unfold GoogleKeepService.parseAndSaveNotes, GoogleKeepService.MAX_NOTES_LIMIT.
  rewrite bind_Ok. split.
  - intros (notes & Hnotes & H). exists notes. split; [done|].
    destruct (N.eqb_spec (jslength notes) 0); [done|].
    destruct (N.ltb_spec 5000 (jslength notes)); [done|].
    injection H as <-. split; [lia | done].
  - intros (notes & Hnotes & [Hmin Hmax] & ->). exists notes. split; [done|].
    destruct (N.eqb_spec (jslength notes) 0); [lia|].
    destruct (N.ltb_spec 5000 (jslength notes)); [lia | done].
Qed.

(** X22. The service accepts an import exactly when the parser returns
    between 1 and 5000 notes, both included: an archive that cannot be
    opened, an import without any note and an import of more than 5000 notes
    are refused, and an accepted import yields one record per note. *)
Theorem import_accepted_iff
    (P : Platform) (clock : nat -> Z) (zipBuffer : Buffer) (userId : jsstring) :
  (exists records,
     GoogleKeepService.parseAndSaveNotes P clock zipBuffer userId = Ok records) <->
  (exists notes,
     parseGoogleKeepTakeout P zipBuffer = Ok notes /\ 1 <= jslength notes <= 5000).
Proof.
  split.
  - intros (records & (notes & Hn & Hlen & _)%parseAndSaveNotes_Ok). by exists notes.
  - intros (notes & Hn & Hlen).
    exists (imap (fun i note =>
                    GoogleKeepService.toCreateInput userId (clock i) note) notes).
    apply parseAndSaveNotes_Ok. by exists notes.
Qed.

Lemma take_notBlank (n : nat) (s : jsstring) :
  (0 < n)%nat -> s <> [] -> isTrimmed s -> notBlank (take n s).
Proof.
  intros Hn Hne [Hhead _].
  destruct s as [|c s]; [done|]. destruct n as [|n]; [lia|]. simpl.
  specialize (Hhead c eq_refl). split; [done|]. simpl. by rewrite Hhead.
Qed.

(** X23. Every record handed to storage has text: its title is never empty
    (it is the placeholder when the note has none) and its content, even
    after capping, is neither empty nor whitespace-only. *)
Theorem persisted_records_have_text
    (P : Platform) (clock : nat -> Z) (zipBuffer : Buffer) (userId : jsstring)
    (records : list GoogleKeepService.NoteCreateInput)
    (record : GoogleKeepService.NoteCreateInput) :
  GoogleKeepService.parseAndSaveNotes P clock zipBuffer userId = Ok records ->
  record ∈ records ->
  GoogleKeepService.title record <> [] /\
  notBlank (GoogleKeepService.content record).
Proof.
  intros (notes & Hnotes & _ & ->)%parseAndSaveNotes_Ok Hin.
  apply list_elem_of_lookup_1 in Hin as [i Hi].
  rewrite list_lookup_imap in Hi.
  destruct (notes !! i) as [note|] eqn:Hnote; [|done].
  injection Hi as <-.
  apply bind_Ok in Hnotes as (entries & _ & [= <-]).
  apply list_elem_of_lookup_2 in Hnote.
  apply scan_note_content in Hnote as [Hne Htrim].
  unfold GoogleKeepService.toCreateInput; simpl. split.
  - destruct (bool_decide_reflect (title note = [])) as [_|Ht]; simpl; [done|].
    unfold substring0. destruct (title note); [done|]. done.
  - unfold substring0. apply take_notBlank; [|done|done].
    unfold GoogleKeepService.MAX_CONTENT_LENGTH. lia.
Qed.

Lemma persisted_records_have_text_sample :
  GoogleKeepService.parseAndSaveNotes Fixture.samplePlatform Fixture.sampleClock
    Fixture.sampleArchive (lit "user-1")
  = Ok (imap (fun i note =>
                GoogleKeepService.toCreateInput (lit "user-1") (Fixture.sampleClock i) note)
             [Fixture.note1; Fixture.plainNote]) /\
  GoogleKeepService.title
    (GoogleKeepService.toCreateInput (lit "user-1") (Fixture.sampleClock 0) Fixture.note1)
  <> [] /\
  notBlank (GoogleKeepService.content
    (GoogleKeepService.toCreateInput (lit "user-1") (Fixture.sampleClock 0) Fixture.note1)).
Proof.
  split; [vm_compute; reflexivity|].
  refine (persisted_records_have_text Fixture.samplePlatform Fixture.sampleClock
            Fixture.sampleArchive (lit "user-1") _ _ eq_refl _).
  constructor 1.
Defined.

(** X24. A note within the limits is stored verbatim: when its title is not
    empty and has at most 255 code units and its content has at most 65,535,
    the record at its position carries the same title and the same
    content. *)
Theorem short_notes_stored_verbatim
    (P : Platform) (clock : nat -> Z) (zipBuffer : Buffer) (userId : jsstring)
    (records : list GoogleKeepService.NoteCreateInput)
    (notes : list ParsedNote) (i : nat) (note : ParsedNote) :
  GoogleKeepService.parseAndSaveNotes P clock zipBuffer userId = Ok records ->
  parseGoogleKeepTakeout P zipBuffer = Ok notes ->
  notes !! i = Some note ->
  title note <> [] ->
  jslength (title note) <= 255 ->
  jslength (content note) <= 65535 ->
  exists record,
    records !! i = Some record /\
    GoogleKeepService.title record = title note /\
    GoogleKeepService.content record = content note.
Proof.
  intros (notes' & Hnotes' & _ & ->)%parseAndSaveNotes_Ok Hnotes Hi Hne Ht Hc.
  rewrite Hnotes in Hnotes'. injection Hnotes' as <-.
  exists (GoogleKeepService.toCreateInput userId (clock i) note).
  split; [by rewrite list_lookup_imap, Hi|].
  unfold GoogleKeepService.toCreateInput, substring0, jslength in *; simpl.
  destruct (bool_decide_reflect (title note = [])); [done|]. simpl.
  split; apply take_ge; unfold GoogleKeepService.MAX_CONTENT_LENGTH; lia.
Qed.

Lemma short_notes_stored_verbatim_sample :
  parseGoogleKeepTakeout Fixture.samplePlatform Fixture.sampleArchive
  = Ok [Fixture.note1; Fixture.plainNote] /\
  exists record,
    imap (fun i note =>
            GoogleKeepService.toCreateInput (lit "user-1") (Fixture.sampleClock i) note)
         [Fixture.note1; Fixture.plainNote] !! 1%nat = Some record /\
    GoogleKeepService.title record = title Fixture.plainNote /\
    GoogleKeepService.content record = content Fixture.plainNote.
Proof.
  split; [vm_compute; reflexivity|].
  refine (short_notes_stored_verbatim Fixture.samplePlatform Fixture.sampleClock
            Fixture.sampleArchive (lit "user-1") _ [Fixture.note1; Fixture.plainNote]
            1 Fixture.plainNote eq_refl _ eq_refl _ _ _).
  - vm_compute; reflexivity.
  - discriminate.
  - vm_compute. discriminate.
  - vm_compute. discriminate.
Defined.

(** ** The service with its storage calls *)

Section StorageFacts.
Import GoogleKeepStorage.
Context (DB : Prisma) (P : Platform) (clock : nat -> Z).

(** X25. Notes are inserted only for an accepted import: an insertion is
    made exactly when the user lookup succeeds, the placeholder user, if
    needed, is created, and the import is accepted; it is then the last call,
    it is given the records of the import, between 1 and 5000 of them, and
    the service returns what the insertion returns. *)
Theorem notes_inserted_only_for_accepted_import
    (zipBuffer : Buffer) (userId : jsstring)
    (data : list GoogleKeepService.NoteCreateInput) :
  CreateNotes data ∈ (parseAndSaveNotes DB P clock zipBuffer userId).2 <->
  (user_findUnique DB userId = Ok true \/
   (user_findUnique DB userId = Ok false /\
    user_create DB (placeholderUser userId) = Ok tt)) /\
  GoogleKeepService.parseAndSaveNotes P clock zipBuffer userId = Ok data /\
  1 <= jslength data <= 5000 /\
  last (parseAndSaveNotes DB P clock zipBuffer userId).2 = Some (CreateNotes data) /\
  (parseAndSaveNotes DB P clock zipBuffer userId).1 = note_createMany DB data.
Proof.
  assert (forall records,
            GoogleKeepService.parseAndSaveNotes P clock zipBuffer userId = Ok records ->
            1 <= jslength records <= 5000) as Hrange.
  { intros records (notes & _ & Hlen & ->)%parseAndSaveNotes_Ok.
    unfold jslength in *. by rewrite length_imap. }
  unfold parseAndSaveNotes.
  destruct (user_findUnique DB userId) as [[|]|e]; simpl.
  - destruct (GoogleKeepService.parseAndSaveNotes P clock zipBuffer userId)
      as [records|e] eqn:Hr; simpl.
    + split.
      * intros [[=]|[[= <-]|[]%elem_of_nil]%elem_of_cons]%elem_of_cons.
        destruct (Hrange _ eq_refl). repeat split; auto.
      * intros (_ & [= ->] & _). constructor 2. constructor 1.
    + split.
      * intros [[=]|[]%elem_of_nil]%elem_of_cons.
      * by intros (_ & [=] & _).
  - destruct (user_create DB (placeholderUser userId)) as [[]|e]; simpl.
    + destruct (GoogleKeepService.parseAndSaveNotes P clock zipBuffer userId)
        as [records|e] eqn:Hr; simpl.
      * split.
        -- intros [[=]|[[=]|[[= <-]|[]%elem_of_nil]%elem_of_cons]%elem_of_cons]%elem_of_cons.
           destruct (Hrange _ eq_refl). repeat split; auto.
        -- intros (_ & [= ->] & _). constructor 2. constructor 2. constructor 1.
      * split.
        -- intros [[=]|[[=]|[]%elem_of_nil]%elem_of_cons]%elem_of_cons.
        -- by intros (_ & [=] & _).
    + split.
      * intros [[=]|[[=]|[]%elem_of_nil]%elem_of_cons]%elem_of_cons.
      * intros ([[=] | [_ [=]]] & _).
  - split.
    + intros [[=]|[]%elem_of_nil]%elem_of_cons.
    + intros ([[=] | [[=] _]] & _).
Qed.

(** X26. The placeholder user: the service always starts with the lookup of
    the user; when the lookup finds none, the next call creates the user with
    the identifier, the email [<identifier>@placeholder.local] and the name
    "Imported User", before the archive is looked at and so whatever the
    archive holds; when the lookup finds the user, no user is created. *)
Theorem placeholder_user_before_parsing (zipBuffer : Buffer) (userId : jsstring) :
  head (parseAndSaveNotes DB P clock zipBuffer userId).2 = Some (FindUser userId) /\
  (user_findUnique DB userId = Ok false ->
   (parseAndSaveNotes DB P clock zipBuffer userId).2 !! 1%nat
   = Some (CreateUser {| id := userId;
                         email := userId ++ lit "@placeholder.local";
                         name := lit "Imported User" |})) /\
  (user_findUnique DB userId = Ok true ->
   forall data, CreateUser data ∉ (parseAndSaveNotes DB P clock zipBuffer userId).2).
Proof.
  unfold parseAndSaveNotes.
  destruct (user_findUnique DB userId) as [[|]|e]; simpl.
  - destruct (GoogleKeepService.parseAndSaveNotes P clock zipBuffer userId); simpl;
      (split; [done|]; split; [done|]; intros _ data Hin;
       repeat (apply elem_of_cons in Hin as [Hin|Hin]; [done|]);
       by apply elem_of_nil in Hin).
  - destruct (user_create DB (placeholderUser userId)) as [[]|e]; simpl;
      [destruct (GoogleKeepService.parseAndSaveNotes P clock zipBuffer userId); simpl|];
      by repeat split.
  - by repeat split.
Qed.

End StorageFacts.

Lemma notes_inserted_only_for_accepted_import_sample :
  GoogleKeepService.parseAndSaveNotes Fixture.samplePlatform Fixture.sampleClock
    Fixture.sampleArchive (lit "user-1")
  = Ok (imap (fun i note =>
                GoogleKeepService.toCreateInput (lit "user-1") (Fixture.sampleClock i) note)
             [Fixture.note1; Fixture.plainNote]) /\
  (GoogleKeepStorage.parseAndSaveNotes (healthyStorage false) Fixture.samplePlatform
     Fixture.sampleClock Fixture.sampleArchive (lit "user-1")).1 = Ok 2.
Proof.
  split; [vm_compute; reflexivity|].
  destruct (proj1 (notes_inserted_only_for_accepted_import (healthyStorage false)
                     Fixture.samplePlatform Fixture.sampleClock Fixture.sampleArchive
                     (lit "user-1")
                     (imap (fun i note =>
                              GoogleKeepService.toCreateInput (lit "user-1")
                                (Fixture.sampleClock i) note)
                           [Fixture.note1; Fixture.plainNote])))
    as (_ & _ & _ & _ & Hresult).
  - vm_compute. constructor 2. constructor 2. constructor 1.
  - rewrite Hresult. reflexivity.
Defined.

Lemma placeholder_user_before_parsing_sample :
  GoogleKeepStorage.user_findUnique (healthyStorage false) (lit "user-1") = Ok false /\
  (GoogleKeepStorage.parseAndSaveNotes (healthyStorage false) Fixture.emptyArrayPlatform
     Fixture.sampleClock Fixture.sampleArchive (lit "user-1")).1 = Throw OtherError /\
  (GoogleKeepStorage.parseAndSaveNotes (healthyStorage false) Fixture.emptyArrayPlatform
     Fixture.sampleClock Fixture.sampleArchive (lit "user-1")).2 !! 1%nat
  = Some (GoogleKeepStorage.CreateUser
            {| GoogleKeepStorage.id := lit "user-1";
               GoogleKeepStorage.email := lit "user-1" ++ lit "@placeholder.local";
               GoogleKeepStorage.name := lit "Imported User" |}).
Proof.
  split; [reflexivity|]. split; [vm_compute; reflexivity|].
  exact (proj1 (proj2 (placeholder_user_before_parsing (healthyStorage false)
                         Fixture.emptyArrayPlatform Fixture.sampleClock
                         Fixture.sampleArchive (lit "user-1")))
           eq_refl).
Defined.

(** ** The controller *)

Section ControllerFacts.
Import Controller.
Context (E : Env).

Lemma validateUserId_header (header : jsstring) :
  (1 <= jslength header <= 255 /\
   Validators.validateUserId (VStr header) = Validators.Success header) \/
  (~ 1 <= jslength header <= 255 /\
   exists issues, Validators.validateUserId (VStr header) = Validators.Failure issues).
Proof.
  unfold Validators.validateUserId, Validators.userIdSchema.
  unfold Validators.minLength, Validators.maxLength.
  destruct (N.ltb_spec (jslength header) 1); simpl.
  - right. split; [lia | by eexists].
  - destruct (N.ltb_spec 255 (jslength header)); simpl.
    + right. split; [lia | by eexists].
    + left. split; [lia | done].
Qed.

Lemma validateUploadedFile_outcome (info : Validators.UploadedFileInfo) :
  (acceptableFile info /\
   Validators.validateUploadedFile info = Validators.Success info) \/
  (~ acceptableFile info /\
   exists issues, Validators.validateUploadedFile info = Validators.Failure issues).
Proof.
  unfold Validators.validateUploadedFile.
  destruct (Validators.fileSchema info) as [|i issues] eqn:Hs; simpl.
  - left. split; [by apply fileSchema_nil | done].
  - right. split; [|by eexists].
    intros Hok%fileSchema_nil. congruence.
Qed.

(** X27. The answer is 401 exactly when the [X-User-ID] header is missing
    or is not 1 to 255 code units long, and then nothing else happens: the
    upload is not read, not cleaned up and the service is not called. *)
Theorem unauthorized_iff (req : Request) :
  (status (importKeepNotes E req).1 = 401 <->
   ~ 1 <= jslength (xUserId req) <= 255) /\
  (status (importKeepNotes E req).1 = 401 -> (importKeepNotes E req).2 = []).
Proof.
  unfold importKeepNotes.
  destruct (validateUserId_header (xUserId req)) as [[Hlen ->] | [Hlen [issues ->]]].
  - assert (forall r : Response * list effect,
              status r.1 <> 401 ->
              (status r.1 = 401 <-> ~ 1 <= jslength (xUserId req) <= 255) /\
              (status r.1 = 401 -> r.2 = [])) as Hno.
    { intros r Hr. split; [split|]; done. }
    apply Hno.
    destruct (uploadedFileOf req) as [file|]; [|done].
    destruct (bool_decide (filepath file = [])); [done|].
    destruct (Validators.validateUploadedFile (fileInfo file)); [|done].
    destruct (readFile E (filepath file)) as [fileBuffer|e]; [|done].
    by destruct (parseAndSaveNotes E fileBuffer (xUserId req)).
  - simpl. by split.
Qed.

(** X28. The service only sees validated input: when it is called, it is
    called with the value of the [X-User-ID] header, which is 1 to 255 code
    units long, and with the bytes read from the path of an uploaded
    [takeout] file that passed the file validation. *)
Theorem service_sees_validated_input
    (req : Request) (fileBuffer : KeepParser.Buffer) (userId : jsstring) :
  CallService fileBuffer userId ∈ (importKeepNotes E req).2 ->
  userId = xUserId req /\
  1 <= jslength userId <= 255 /\
  exists file,
    uploadedFileOf req = Some file /\
    acceptableFile (fileInfo file) /\
    readFile E (filepath file) = Ok fileBuffer.
Proof.
  unfold importKeepNotes.
  destruct (validateUserId_header (xUserId req)) as [[Hlen ->] | [Hlen [issues ->]]];
    [|by intros ?%elem_of_nil].
  destruct (uploadedFileOf req) as [file|]; [|by intros ?%elem_of_nil].
  destruct (bool_decide (filepath file = [])); [by intros ?%elem_of_nil|].
  destruct (validateUploadedFile_outcome (fileInfo file)) as [[Hok ->] | [_ [issues ->]]].
  - destruct (readFile E (filepath file)) as [buffer|e] eqn:Hread.
    + assert (CallService fileBuffer userId
                ∈ [ReadFile (filepath file); Cleanup (filepath file);
                   CallService buffer (xUserId req)] ->
              userId = xUserId req /\ fileBuffer = buffer) as Hin.
      { intros [[=]|[[=]|[[= -> ->]|[]%elem_of_nil]%elem_of_cons]%elem_of_cons]%elem_of_cons.
        done. }
      destruct (parseAndSaveNotes E buffer (xUserId req)); simpl;
        intros [-> ->]%Hin; (split; [done|]; split; [done|]; by exists file).
    + simpl. intros [[=]|[[=]|[]%elem_of_nil]%elem_of_cons]%elem_of_cons.
  - simpl. intros [[=]|[]%elem_of_nil]%elem_of_cons.
Qed.

(** X29. The temporary file is cleaned up exactly once: for a request with
    a valid header and an uploaded [takeout] file that has a path, the
    effects are the cleanup of that path alone (file refused), the read and
    the cleanup (read failed), or the read, the cleanup and then the call of
    the service; the cleanup never comes after the call of the service. *)
Theorem upload_cleaned_up_once (req : Request) (file : File) :
  1 <= jslength (xUserId req) <= 255 ->
  uploadedFileOf req = Some file ->
  filepath file <> [] ->
  (importKeepNotes E req).2 = [Cleanup (filepath file)] \/
  (importKeepNotes E req).2 = [ReadFile (filepath file); Cleanup (filepath file)] \/
  exists fileBuffer,
    readFile E (filepath file) = Ok fileBuffer /\
    (importKeepNotes E req).2
    = [ReadFile (filepath file); Cleanup (filepath file);
       CallService fileBuffer (xUserId req)].
Proof.
  intros Hlen Hfile Hpath. unfold importKeepNotes.
  destruct (validateUserId_header (xUserId req)) as [[_ ->] | [Hno _]]; [|done].
  rewrite Hfile.
  destruct (bool_decide_reflect (filepath file = [])); [done|].
  destruct (Validators.validateUploadedFile (fileInfo file)); [|by left].
  destruct (readFile E (filepath file)) as [buffer|e]; [|right; by left].
  right. right. exists buffer. split; [done|].
  by destruct (parseAndSaveNotes E buffer (xUserId req)).
Qed.

(** X30. The answer is 200 exactly when the service was called and returned
    a count, and the body then reports that count; every other answer is
    400, 401 or 500, and the answer is 500 only when reading the upload
    failed. *)
Theorem success_iff (req : Request) :
  (status (importKeepNotes E req).1 = 200 <->
   exists fileBuffer importedCount,
     CallService fileBuffer (xUserId req) ∈ (importKeepNotes E req).2 /\
     parseAndSaveNotes E fileBuffer (xUserId req) = Ok importedCount /\
     body (importKeepNotes E req).1
     = SuccessBody importedCount
         (lit "Successfully imported " ++ Number_toString (Z.of_N importedCount)
          ++ lit " notes")) /\
  (status (importKeepNotes E req).1 = 200 \/
   status (importKeepNotes E req).1 = 400 \/
   status (importKeepNotes E req).1 = 401 \/
   status (importKeepNotes E req).1 = 500) /\
  (status (importKeepNotes E req).1 = 500 ->
   exists file e,
     uploadedFileOf req = Some file /\ readFile E (filepath file) = Throw e).
Proof.
  unfold importKeepNotes.
  destruct (Validators.validateUserId (VStr (xUserId req))) as [userId|issues] eqn:Hu.
  2:{ simpl. split; [split; [done|]|split; [auto|done]].
      by intros (? & ? & []%elem_of_nil & _). }
  assert (userId = xUserId req) as ->.
  { destruct (validateUserId_header (xUserId req)) as [[_ Hs] | [_ [i Hf]]]; congruence. }
  clear Hu.
  destruct (uploadedFileOf req) as [file|].
  2:{ simpl. split; [split; [done|]|split; [auto|done]].
      by intros (? & ? & []%elem_of_nil & _). }
  destruct (bool_decide (filepath file = [])).
  { simpl. split; [split; [done|]|split; [auto|done]].
    by intros (? & ? & []%elem_of_nil & _). }
  destruct (Validators.validateUploadedFile (fileInfo file)).
  2:{ simpl. split; [split; [done|]|split; [auto|done]].
      intros (? & ? & [[=]|[]%elem_of_nil]%elem_of_cons & _). }
  destruct (readFile E (filepath file)) as [buffer|e] eqn:Hread.
  2:{ simpl. split; [split; [done|]|split; [auto|]].
      - intros (? & ? & [[=]|[[=]|[]%elem_of_nil]%elem_of_cons]%elem_of_cons & _).
      - intros _. by exists file, e. }
  destruct (parseAndSaveNotes E buffer (xUserId req)) as [count|e] eqn:Hs; simpl.
  - split; [split|split; [auto|done]]; [|done].
    intros _. exists buffer, count. split; [|done].
    constructor 2. constructor 2. constructor 1.
  - split; [split; [done|]|split; [auto|done]].
    intros (b & c & [[=]|[[=]|[[= ->]|[]%elem_of_nil]%elem_of_cons]%elem_of_cons]%elem_of_cons
              & Hok & _).
    congruence.
Qed.




End ControllerFacts.

Lemma unauthorized_sample :
  Controller.status (Controller.importKeepNotes Requests.env Requests.anonymousRequest).1 = 401 /\
  (Controller.importKeepNotes Requests.env Requests.anonymousRequest).2 = [].
Proof.
  split; [reflexivity|].
  exact (proj2 (unauthorized_iff Requests.env Requests.anonymousRequest) eq_refl).
Defined.

Lemma service_sees_validated_input_sample :
  Controller.CallService Fixture.sampleArchive (lit "user-1")
    ∈ (Controller.importKeepNotes Requests.env Requests.goodRequest).2 /\
  lit "user-1" = Controller.xUserId Requests.goodRequest /\
  1 <= jslength (lit "user-1") <= 255 /\
  exists file,
    Controller.uploadedFileOf Requests.goodRequest = Some file /\
    acceptableFile (Controller.fileInfo file) /\
    Controller.readFile Requests.env (Controller.filepath file) = Ok Fixture.sampleArchive.
Proof.
  assert (Controller.CallService Fixture.sampleArchive (lit "user-1")
            ∈ (Controller.importKeepNotes Requests.env Requests.goodRequest).2) as Hin.
  { vm_compute. constructor 2. constructor 2. constructor 1. }
  exact (conj Hin (service_sees_validated_input Requests.env Requests.goodRequest
                     Fixture.sampleArchive (lit "user-1") Hin)).
Defined.

Lemma upload_cleaned_up_once_sample :
  1 <= jslength (Controller.xUserId Requests.goodRequest) <= 255 /\
  Controller.uploadedFileOf Requests.goodRequest = Some Requests.takeoutFile /\
  Controller.filepath Requests.takeoutFile <> [] /\
  (Controller.importKeepNotes Requests.env Requests.goodRequest).2
  = [Controller.ReadFile (lit "/tmp/upload_1"); Controller.Cleanup (lit "/tmp/upload_1");
     Controller.CallService Fixture.sampleArchive (lit "user-1")].
Proof.
  assert (1 <= jslength (Controller.xUserId Requests.goodRequest) <= 255) as Hlen.
  { vm_compute. split; discriminate. }
  assert (Controller.filepath Requests.takeoutFile <> []) as Hpath by discriminate.
  split; [exact Hlen|]. split; [reflexivity|]. split; [exact Hpath|].
  destruct (upload_cleaned_up_once Requests.env Requests.goodRequest
              Requests.takeoutFile Hlen eq_refl Hpath)
    as [H | [H | (buffer & _ & H)]]; vm_compute in H |- *; try discriminate H.
  reflexivity.
Defined.

Lemma success_sample :
  Controller.status (Controller.importKeepNotes Requests.env Requests.goodRequest).1 = 200 /\
  exists fileBuffer importedCount,
    Controller.CallService fileBuffer (Controller.xUserId Requests.goodRequest)
      ∈ (Controller.importKeepNotes Requests.env Requests.goodRequest).2 /\
    Controller.parseAndSaveNotes Requests.env fileBuffer
      (Controller.xUserId Requests.goodRequest) = Ok importedCount /\
    Controller.body (Controller.importKeepNotes Requests.env Requests.goodRequest).1
    = Controller.SuccessBody importedCount
        (lit "Successfully imported " ++ Number_toString (Z.of_N importedCount)
         ++ lit " notes").
Proof.
  split; [reflexivity|].
  exact (proj1 (proj1 (success_iff Requests.env Requests.goodRequest)) eq_refl).
Defined.

